(** * contur_likelihood: the full Contur likelihood as a spey backend

    A shallow embedding of [src/contur_likelihood.py] (class
    [ConturLikelihood]) together with the properties its specification
    states about it.

    Numbers are modelled as the real numbers [R]: rounding, infinities and
    NaN of IEEE arithmetic are outside the model.  The one place where the
    code itself makes a NaN out of real inputs is [np.sqrt] of a negative
    covariance entry; [R] has no such value, so every statement about the
    values of [lam] assumes covariances with non-negative diagonals
    ([nonnegative_diagonal]), and statements about shapes, exceptions and
    equalities of results do not depend on it.  One-dimensional numpy
    arrays are lists, covariance matrices are n-dimensional arrays given by
    their shape and their row-major contents.  Python exceptions are values
    of [exn], and every function that can raise returns a [result]. *)

From Stdlib Require Import String.
From Stdlib Require Import Reals Lra Lia List Bool Arith PeanoNat.
From Stdlib Require Import FunctionalExtensionality.
Import ListNotations.
Open Scope string_scope.
Open Scope list_scope.
Open Scope R_scope.

Set Implicit Arguments.

(** ** Exceptions and the result monad *)

Inductive exn : Type :=
| NameError (name : string)
| IndexError (msg : string)
| ValueError (msg : string).

Inductive result (A : Type) : Type :=
| Ok (a : A)
| Raise (e : exn).

Arguments Ok {A} a.
Arguments Raise {A} e.

Definition bind {A B : Type} (c : result A) (k : A -> result B) : result B :=
  match c with
  | Ok a => k a
  | Raise e => Raise e
  end.

Definition fmap {A B : Type} (f : A -> B) (c : result A) : result B :=
  bind c (fun a => Ok (f a)).

Notation "x <- c ;; k" := (bind c (fun x => k))
  (at level 61, c at next level, right associativity).

(** ** numpy: one-dimensional arrays *)

Definition vec : Type := list R.

(** [x > y] as numpy computes it, a boolean. *)
Definition Rgtb (x y : R) : bool :=
  if Rlt_dec y x then true else false.

Arguments Rgtb : simpl never.

Fixpoint zip_with {A B C : Type} (f : A -> B -> C) (xs : list A) (ys : list B)
  : list C :=
  match xs, ys with
  | x :: xs', y :: ys' => f x y :: zip_with f xs' ys'
  | _, _ => []
  end.

Definition broadcast_error : exn :=
  ValueError "operands could not be broadcast together".

(** An elementwise binary operation on two 1-D arrays, with numpy's
    broadcasting: equal lengths pair up, a length-1 operand is stretched,
    anything else raises [ValueError]. *)
Definition broadcast2 (f : R -> R -> R) (xs ys : vec) : result vec :=
  if (length xs =? length ys)%nat then Ok (zip_with f xs ys)
  else if (length xs =? 1)%nat then Ok (map (f (hd 0 xs)) ys)
  else if (length ys =? 1)%nat then Ok (map (fun x => f x (hd 0 ys)) xs)
  else Raise broadcast_error.

(** [pars[0]] *)
Definition item0 (pars : vec) : result R :=
  match pars with
  | p :: _ => Ok p
  | [] => Raise (IndexError "index 0 is out of bounds for axis 0 with size 0")
  end.

(** [pars[1:]] *)
Definition slice_from1 (pars : vec) : vec := skipn 1 pars.

(** [data[:n]] *)
Definition slice_to (n : nat) (data : vec) : vec := firstn n data.

(** [np.array_split(l, 3)]: the first [len(l) mod 3] sections have
    [len(l) / 3 + 1] entries, the others [len(l) / 3]. *)
Definition array_split3 (l : vec) : vec * vec * vec :=
  let q := (length l / 3)%nat in
  let r := (length l mod 3)%nat in
  let n1 := (q + (if (0 <? r)%nat then 1 else 0))%nat in
  let n2 := (q + (if (1 <? r)%nat then 1 else 0))%nat in
  (firstn n1 l, firstn n2 (skipn n1 l), skipn (n1 + n2) l).

(** [a[mask]] for a boolean mask: the lengths must agree. *)
Fixpoint select (mask : list bool) (a : vec) : vec :=
  match mask, a with
  | m :: mask', x :: a' => if m then x :: select mask' a' else select mask' a'
  | _, _ => []
  end.

Definition mask_index (a : vec) (mask : list bool) : result vec :=
  if (length mask =? length a)%nat then Ok (select mask a)
  else Raise (IndexError "boolean index did not match indexed array").

(** [np.min] *)
Definition np_min (a : vec) : result R :=
  match a with
  | [] => Raise (ValueError
            "zero-size array to reduction operation minimum which has no identity")
  | x :: a' => Ok (fold_left Rmin a' x)
  end.

(** [np.hstack] of two 2-D arrays (lists of rows): the row counts must agree. *)
Definition hstack_rows (a b : list vec) : result (list vec) :=
  if (length a =? length b)%nat then Ok (zip_with (@app R) a b)
  else Raise (ValueError
         "all the input array dimensions except for the concatenation axis must match exactly").

(** ** numpy: n-dimensional arrays (the covariance inputs) *)

Record ndarray : Type := mk_ndarray {
  shape : list nat;
  flat : list R
}.

Definition ndim (a : ndarray) : nat := length (shape a).

(** [a.shape[k]] *)
Definition shape_at (a : ndarray) (k : nat) : nat := nth k (shape a) 0%nat.

(** Entry [(i, j)] of a 2-D array stored row by row. *)
Definition entry (a : ndarray) (i j : nat) : R :=
  nth (i * shape_at a 1 + j) (flat a) 0.

(** [a.diagonal()] of a 2-D array.  Arrays of another rank never reach it:
    the constructor rejects them. *)
Definition diagonal (a : ndarray) : result vec :=
  match shape a with
  | [r; c] => Ok (map (fun i => entry a i i) (seq 0 (Nat.min r c)))
  | _ => Raise (ValueError "diag requires an array of at least two dimensions")
  end.

Definition identity_matrix (n : nat) : ndarray :=
  mk_ndarray [n; n]
    (flat_map (fun i => map (fun j => if (i =? j)%nat then 1 else 0) (seq 0 n))
       (seq 0 n)).

(** ** The module's names

    The module imports [NonlinearConstraint], [np], [BackendBase],
    [ExpectationType], [ModelConfig], [ConstraintModel], [MainModel],
    [jacobian] and [grad], and defines [ConturLikelihood].  It refers to two
    more names, [InvalidInput] and [absolute_uncertainties], that it neither
    imports nor assigns: evaluating either raises [NameError]. *)

Definition unbound {A : Type} (name : string) : result A :=
  Raise (NameError name).

(** [raise InvalidInput(msg)]: the callee [InvalidInput] is evaluated first. *)
Definition raise_InvalidInput {A : Type} (msg : string) : result A :=
  unbound "InvalidInput".

(** The free variable [absolute_uncertainties] of [constraint]. *)
Definition absolute_uncertainties : result vec :=
  unbound "absolute_uncertainties".

(** ** The model *)

(** The prior handed to [ConstraintModel]: a normal distribution with its
    [loc], [scale] and the slice [domain = slice(domain_start, None)]. *)
Record NormalPrior : Type := mk_prior {
  loc : vec;
  scale : vec;
  domain_start : nat
}.

Record ConturLikelihood : Type := mk_model {
  signal_yields : vec;
  background_yields : vec;
  data : vec;
  signal_covariance : ndarray;
  background_covariance : ndarray;
  data_covariance : ndarray;
  nbins : nat;
  constraint_model : NormalPrior
}.

(** [for cov in covs: if cov.ndim != 2: raise ...; if cov.shape[0] != cov.shape[1]: raise ...] *)
Fixpoint check_covariances (covs : list ndarray) : result unit :=
  match covs with
  | [] => Ok tt
  | cov :: rest =>
      if negb (ndim cov =? 2)%nat
      then raise_InvalidInput "2D covariance matrix required"
      else if negb (shape_at cov 0 =? shape_at cov 1)%nat
      then raise_InvalidInput "Covariance matrix must be square"
      else check_covariances rest
  end.

(** [ConturLikelihood.__init__] *)
Definition __init__ (signal background observed : vec)
    (signal_cov background_cov data_cov : ndarray) : result ConturLikelihood :=
  if negb (length (nodup Nat.eq_dec
             [length signal; length background; length observed]) =? 1)%nat
  then raise_InvalidInput "Arrays of yields must be the same length"
  else
    _ <- check_covariances [data_cov; signal_cov; background_cov] ;;
    if negb (length observed =? shape_at data_cov 0)%nat
    then raise_InvalidInput
           "Covariance matrices size should match the number of yields"
    else Ok {| signal_yields := signal;
               background_yields := background;
               data := observed;
               signal_covariance := signal_cov;
               background_covariance := background_cov;
               data_covariance := data_cov;
               nbins := length observed;
               constraint_model :=
                 {| loc := repeat 0 (length observed);
                    scale := repeat 1 (length observed);
                    domain_start := 1 |} |}.

(** [lam], the mean of the main model.  [sqrt] is the real square root: it
    is [np.sqrt] on the non-negative entries; on a negative entry [np.sqrt]
    is NaN, which the real numbers do not have. *)
Definition lam (self : ConturLikelihood) (pars : vec) : result vec :=
  mu <- item0 pars ;;
  poisson_counts <-
    broadcast2 Rplus (map (Rmult mu) (signal_yields self)) (background_yields self) ;;
  let '(signal_pars, background_pars, data_pars) :=
    array_split3 (slice_from1 pars) in
  sd <- diagonal (signal_covariance self) ;;
  let signal_uncertainties := map sqrt sd in
  bd <- diagonal (background_covariance self) ;;
  let background_uncertainties := map sqrt bd in
  dd <- diagonal (data_covariance self) ;;
  let data_uncertainties := map sqrt dd in
  t1 <- broadcast2 Rmult signal_pars signal_uncertainties ;;
  s1 <- broadcast2 Rplus poisson_counts t1 ;;
  t2 <- broadcast2 Rmult background_pars background_uncertainties ;;
  s2 <- broadcast2 Rplus s1 t2 ;;
  t3 <- broadcast2 Rmult data_pars data_uncertainties ;;
  broadcast2 Rplus s2 t3.

(** [constraint], the function handed to the optimizer. *)
Definition constraint (self : ConturLikelihood) (pars : vec) : result vec :=
  au <- absolute_uncertainties ;;
  t <- broadcast2 Rmult (slice_from1 pars) au ;;
  broadcast2 Rmult (background_yields self) (map (Rplus 1) t).

(** [self.is_alive] *)
Definition is_alive (self : ConturLikelihood) : bool :=
  existsb (fun s => Rgtb s 0) (signal_yields self).

(** ** Library code the class is built on

    The distribution primitives of the statistics library and the automatic
    differentiation engine are external to the repository.  The scalar
    primitives are parameters of the development; the adapters [MainModel]
    and [ConstraintModel] around them follow the specification. *)

Record Primitives : Type := mk_primitives {
  (** summed Poisson log-probability of observations at a mean vector *)
  poisson_log_prob : vec -> vec -> result R;
  (** summed normal log-density: [loc], [scale], values *)
  normal_log_prob : vec -> vec -> vec -> result R;
  (** the states of the random generator *)
  rng : Type;
  (** one Poisson draw at a mean: the variate and the generator's next
      state *)
  poisson_rvs : rng -> R -> R * rng;
  (** one normal draw at [loc], [scale]: the variate and the generator's
      next state *)
  normal_rvs : rng -> R -> R -> R * rng;
  (** [autograd.grad] *)
  grad : (vec -> result R) -> vec -> result vec;
  (** [autograd.jacobian] *)
  jacobian : (vec -> result vec) -> vec -> result (list vec)
}.

(** One draw per entry of [l], threading the generator from left to
    right. *)
Fixpoint draw_row {G A : Type} (draw : G -> A -> R * G) (g : G) (l : list A)
  : vec * G :=
  match l with
  | [] => ([], g)
  | x :: l' =>
      let '(v, g1) := draw g x in
      let '(vs, g2) := draw_row draw g1 l' in
      (v :: vs, g2)
  end.

(** [n] rows of draws, one after the other. *)
Fixpoint draw_rows {G A : Type} (draw : G -> A -> R * G) (g : G) (l : list A)
    (n : nat) : list vec * G :=
  match n with
  | O => ([], g)
  | S n' =>
      let '(row, g1) := draw_row draw g l in
      let '(rows, g2) := draw_rows draw g1 l n' in
      (row :: rows, g2)
  end.

(** [spey.ExpectationType] *)
Inductive ExpectationType : Type :=
| observed
| aposteriori
| apriori.

Definition is_apriori (e : ExpectationType) : bool :=
  match e with
  | apriori => true
  | _ => false
  end.

(** [spey.base.model_config.ModelConfig] *)
Record ModelConfig : Type := mk_config {
  poi_index : nat;
  minimum_poi : R;
  suggested_init : vec;
  suggested_bounds : list (option R * option R)
}.

(** A bound of [scipy.optimize.NonlinearConstraint]: a number or an infinity. *)
Inductive bound : Type :=
| Finite (x : R)
| PlusInfinity
| MinusInfinity.

(** [scipy.optimize.NonlinearConstraint(fun, lb, ub, jac=...)] *)
Record NonlinearConstraint : Type := mk_constraint {
  nc_fun : vec -> result vec;
  nc_lb : bound;
  nc_ub : bound;
  nc_jac : vec -> result (list vec)
}.

Section Backend.

Variable prim : Primitives.

(** Modelled from the spec: [MainModel.log_prob(pars, observations)], the
    sum of the per-bin Poisson log-probabilities at mean [lam(pars)]; the
    adapter's code belongs to the library and is not in the repository. *)
Definition MainModel_log_prob (mean_of : vec -> result vec) (pars obs : vec)
  : result R :=
  mean <- mean_of pars ;;
  poisson_log_prob prim mean obs.

(** Modelled from the spec: [MainModel.sample(pars, n)], [n] vectors of
    Poisson counts with mean [lam(pars)], drawn from the generator in its
    current state; library code, not in the repository. *)
Definition MainModel_sample (mean_of : vec -> result vec) (pars : vec) (n : nat)
    (g : rng prim) : result (list vec * rng prim) :=
  mean <- mean_of pars ;;
  Ok (draw_rows (poisson_rvs prim) g mean n).

(** Modelled from the spec: [MainModel.expected_data(pars)] returns
    [lam(pars)]; library code, not in the repository. *)
Definition MainModel_expected_data (mean_of : vec -> result vec) (pars : vec)
  : result vec :=
  mean_of pars.

(** Modelled from the spec: [ConstraintModel.log_prob(pars)], the summed
    log-density of the prior at the parameters of its domain; library code,
    not in the repository. *)
Definition ConstraintModel_log_prob (cm : NormalPrior) (pars : vec) : result R :=
  normal_log_prob prim (loc cm) (scale cm) (skipn (domain_start cm) pars).

(** Modelled from the spec: [ConstraintModel.sample(nuisance_pars, n)], [n]
    vectors with one normal draw per prior, independent of the parameters
    passed, drawn from the generator in its current state; library code,
    not in the repository. *)
Definition ConstraintModel_sample (cm : NormalPrior) (nuisance_pars : vec)
    (n : nat) (g : rng prim) : result (list vec * rng prim) :=
  Ok (draw_rows (fun g '(l, s) => normal_rvs prim g l s) g
        (combine (loc cm) (scale cm)) n).

(** Modelled from the spec: [ConstraintModel.expected_data()], the prior
    mean; library code, not in the repository. *)
Definition ConstraintModel_expected_data (cm : NormalPrior) : vec :=
  loc cm.

(** [self.main_model = MainModel(lam)] *)
Definition main_model (self : ConturLikelihood) : vec -> result vec :=
  lam self.

(** [self.constraints] *)
Definition constraints (self : ConturLikelihood) : list NonlinearConstraint :=
  let jac_constr := jacobian prim (constraint self) in
  [ {| nc_fun := constraint self;
       nc_lb := Finite 0;
       nc_ub := PlusInfinity;
       nc_jac := jac_constr |} ].

(** [ConturLikelihood.config] *)
Definition config (self : ConturLikelihood) (allow_negative_signal : bool)
    (poi_upper_bound : R) : result ModelConfig :=
  let positive := map (fun s => Rgtb s 0) (signal_yields self) in
  b <- mask_index (background_yields self) positive ;;
  s <- mask_index (signal_yields self) positive ;;
  ratios <- broadcast2 Rdiv b s ;;
  lowest <- np_min ratios ;;
  let min_poi := - lowest in
  Ok {| poi_index := 0;
        minimum_poi := min_poi;
        suggested_init := repeat 1 (length (data self) + 1);
        suggested_bounds :=
          [(Some (if allow_negative_signal then min_poi else 0),
            Some poi_upper_bound)]
          ++ repeat (None, None) (length (data self)) |}.

(** The dataset both builders condition on (lines 198-201 and 246-249). *)
Definition current_dataset (self : ConturLikelihood) (expected : ExpectationType)
    (data_arg : option vec) : vec :=
  let current_data :=
    if is_apriori expected then background_yields self else data self in
  match data_arg with
  | None => current_data
  | Some d => d
  end.

(** [negative_loglikelihood], the closure of [get_objective_function]. *)
Definition negative_loglikelihood (self : ConturLikelihood) (dataset pars : vec)
  : result R :=
  a <- MainModel_log_prob (main_model self) pars
         (slice_to (length (data self)) dataset) ;;
  b <- ConstraintModel_log_prob (constraint_model self) pars ;;
  Ok (- a - b).

(** What the objective returns: the value alone, or the value and its
    gradient. *)
Inductive objective_value : Type :=
| Value (v : R)
| ValueGrad (v : R) (g : vec).

Definition value_part (o : objective_value) : R :=
  match o with
  | Value v => v
  | ValueGrad v _ => v
  end.

(** [ConturLikelihood.get_objective_function] *)
Definition get_objective_function (self : ConturLikelihood)
    (expected : ExpectationType) (data_arg : option vec) (do_grad : bool)
  : vec -> result objective_value :=
  let dataset := current_dataset self expected data_arg in
  if do_grad then
    let grad_negative_loglikelihood :=
      grad prim (negative_loglikelihood self dataset) in
    fun pars =>
      v <- negative_loglikelihood self dataset pars ;;
      g <- grad_negative_loglikelihood pars ;;
      Ok (ValueGrad v g)
  else
    fun pars => fmap Value (negative_loglikelihood self dataset pars).

(** [ConturLikelihood.get_logpdf_func] *)
Definition get_logpdf_func (self : ConturLikelihood)
    (expected : ExpectationType) (data_arg : option vec) : vec -> result R :=
  let dataset := current_dataset self expected data_arg in
  fun pars =>
    a <- MainModel_log_prob (main_model self) pars
           (slice_to (length (data self)) dataset) ;;
    b <- ConstraintModel_log_prob (constraint_model self) pars ;;
    Ok (a + b).

(** [sampler], the closure of [get_sampler].  The random generator is
    global state in the code: here each call receives the generator's state
    and returns the state it leaves behind. *)
Definition sampler (self : ConturLikelihood) (pars : vec) (sample_size : nat)
    (include_auxiliary : bool) (g : rng prim)
  : result (list vec * rng prim) :=
  drawn <- MainModel_sample (main_model self) pars sample_size g ;;
  let '(sample, g1) := drawn in
  if include_auxiliary then
    drawn_aux <-
      ConstraintModel_sample (constraint_model self) (slice_from1 pars)
        sample_size g1 ;;
    let '(constraint_sample, g2) := drawn_aux in
    sample <- hstack_rows sample constraint_sample ;;
    Ok (sample, g2)
  else Ok (sample, g1).

(** [ConturLikelihood.get_sampler] *)
Definition get_sampler (self : ConturLikelihood) (pars : vec)
  : nat -> bool -> rng prim -> result (list vec * rng prim) :=
  sampler self pars.

(** [ConturLikelihood.expected_data] *)
Definition expected_data (self : ConturLikelihood) (pars : vec)
    (include_auxiliary : bool) : result vec :=
  mean <- MainModel_expected_data (main_model self) pars ;;
  if include_auxiliary
  then Ok (mean ++ ConstraintModel_expected_data (constraint_model self))
  else Ok mean.

(** The log-likelihood conditioned on a dataset, in the specification's
    words: [MainModel.log_prob(pars, dataset) + ConstraintModel.log_prob(pars)]. *)
Definition log_likelihood_on (self : ConturLikelihood) (dataset pars : vec)
  : result R :=
  a <- MainModel_log_prob (main_model self) pars dataset ;;
  b <- ConstraintModel_log_prob (constraint_model self) pars ;;
  Ok (a + b).

(** Its negative, the objective's value conditioned on a dataset. *)
Definition negative_log_likelihood_on (self : ConturLikelihood)
    (dataset pars : vec) : result R :=
  a <- MainModel_log_prob (main_model self) pars dataset ;;
  b <- ConstraintModel_log_prob (constraint_model self) pars ;;
  Ok (- a - b).

(** The objective conditioned on a dataset: its value, with the gradient of
    that same function when asked for. *)
Definition objective_on (self : ConturLikelihood) (dataset : vec)
    (do_grad : bool) : vec -> result objective_value :=
  if do_grad then
    fun pars =>
      v <- negative_log_likelihood_on self dataset pars ;;
      g <- grad prim (negative_log_likelihood_on self dataset) pars ;;
      Ok (ValueGrad v g)
  else
    fun pars => fmap Value (negative_log_likelihood_on self dataset pars).

End Backend.

(** ** Concrete models used in the examples *)

(** The two-bin scenario of the specification: unit covariances. *)
Definition scenario : ConturLikelihood :=
  {| signal_yields := [5; 10];
     background_yields := [20; 30];
     data := [25; 40];
     signal_covariance := identity_matrix 2;
     background_covariance := identity_matrix 2;
     data_covariance := identity_matrix 2;
     nbins := 2;
     constraint_model :=
       {| loc := [0; 0]; scale := [1; 1]; domain_start := 1 |} |}.

(** Primitives that return fixed numbers, to run the backend on an input:
    the generator's state counts the draws made. *)
Definition constant_primitives : Primitives :=
  {| rng := nat;
     poisson_log_prob := fun mean obs => Ok (fold_right Rplus 0 obs);
     normal_log_prob := fun l s values => Ok (fold_right Rplus 0 values);
     poisson_rvs := fun g mean => (mean, S g);
     normal_rvs := fun g l _ => (l, S g);
     grad := fun _ pars => Ok (map (fun _ => 0) pars);
     jacobian := fun _ pars => Ok [] |}.

(** Four bins with unit covariances. *)
Definition four_bins : ConturLikelihood :=
  {| signal_yields := [1; 2; 3; 4];
     background_yields := [10; 20; 30; 40];
     data := [11; 22; 33; 44];
     signal_covariance := identity_matrix 4;
     background_covariance := identity_matrix 4;
     data_covariance := identity_matrix 4;
     nbins := 4;
     constraint_model :=
       {| loc := [0; 0; 0; 0]; scale := [1; 1; 1; 1]; domain_start := 1 |} |}.

(** The scenario with correlated signal uncertainties: the diagonal of the
    signal covariance is unchanged, the entries off it are not zero. *)
Definition correlated_scenario : ConturLikelihood :=
  {| signal_yields := [5; 10];
     background_yields := [20; 30];
     data := [25; 40];
     signal_covariance := mk_ndarray [2; 2]%nat [1; 7; 7; 1];
     background_covariance := identity_matrix 2;
     data_covariance := identity_matrix 2;
     nbins := 2;
     constraint_model :=
       {| loc := [0; 0]; scale := [1; 1]; domain_start := 1 |} |}.

(** Two bins with a signal covariance of dimension 3: the constructor
    accepts it. *)
Definition wide_signal_covariance : ConturLikelihood :=
  {| signal_yields := [5; 10];
     background_yields := [20; 30];
     data := [25; 40];
     signal_covariance := identity_matrix 3;
     background_covariance := identity_matrix 2;
     data_covariance := identity_matrix 2;
     nbins := 2;
     constraint_model :=
       {| loc := [0; 0]; scale := [1; 1]; domain_start := 1 |} |}.

(** ** Definitions the statements use *)

(** A covariance input the constructor's loop lets through. *)
Definition square_2d (cov : ndarray) : bool :=
  (ndim cov =? 2)%nat && (shape_at cov 0 =? shape_at cov 1)%nat.

(** The validity condition of the specification: one common length, three
    square two-dimensional covariances, and an observed-data covariance of
    dimension [N]. *)
Definition inputs_valid (signal background observed : vec)
    (signal_cov background_cov data_cov : ndarray) : bool :=
  (length signal =? length background)%nat
  && (length background =? length observed)%nat
  && square_2d data_cov && square_2d signal_cov && square_2d background_cov
  && (shape_at data_cov 0 =? length observed)%nat.

(** What is known of a model the constructor returned. *)
Record constructed (self : ConturLikelihood) : Prop := mk_constructed {
  nbins_data : nbins self = length (data self);
  same_length_sb : length (signal_yields self) = length (background_yields self);
  same_length_bd : length (background_yields self) = length (data self);
  data_cov_shape : shape (data_covariance self)
                   = [length (data self); length (data self)];
  signal_cov_square : exists n, shape (signal_covariance self) = [n; n];
  background_cov_square : exists n, shape (background_covariance self) = [n; n];
  prior_loc : loc (constraint_model self) = repeat 0 (length (data self));
  prior_scale : scale (constraint_model self) = repeat 1 (length (data self));
  prior_domain : domain_start (constraint_model self) = 1%nat
}.

(** The specification's reduction: [v] is the least [b_i / s_i] over the
    bins [i] with [s_i > 0]. *)
Definition least_ratio (s b : vec) (v : R) : Prop :=
  (exists i, (i < length s)%nat /\ 0 < nth i s 0 /\ v = nth i b 0 / nth i s 0)
  /\ (forall i, (i < length s)%nat -> 0 < nth i s 0 ->
        v <= nth i b 0 / nth i s 0).

Definition positive_mask (s : vec) : list bool :=
  map (fun x => Rgtb x 0) s.

(** The specification's formula for [lam], bin by bin, on a parameter vector
    laid out as the POI followed by the signal, background and data
    nuisance blocks of [N] entries each. *)
Definition mean_response (self : ConturLikelihood) (pars : vec) : vec :=
  let n := length (data self) in
  map (fun i =>
         nth 0 pars 0 * nth i (signal_yields self) 0
         + nth i (background_yields self) 0
         + nth (1 + i) pars 0 * sqrt (entry (signal_covariance self) i i)
         + nth (1 + n + i) pars 0
           * sqrt (entry (background_covariance self) i i)
         + nth (1 + (n + n) + i) pars 0
           * sqrt (entry (data_covariance self) i i))
      (seq 0 n).

(** A covariance whose variances, the entries of its diagonal, are not
    negative. *)
Definition nonnegative_diagonal (cov : ndarray) : Prop :=
  forall i, (i < shape_at cov 0)%nat -> 0 <= entry cov i i.

(** Two arrays of one shape with the same entries on the diagonal. *)
Definition same_diagonal (a b : ndarray) : Prop :=
  shape a = shape b
  /\ forall i, (i < shape_at a 0)%nat -> entry a i i = entry b i i.

(** A vector of [n] entries whose [i]-th entry is [g i]. *)
Definition tabulates (l : vec) (n : nat) (g : nat -> R) : Prop :=
  length l = n /\ forall i, (i < n)%nat -> nth i l 0 = g i.

(** ** What the constructor accepts *)

Lemma one_distinct_length (a b c : nat) :
  (length (nodup Nat.eq_dec [a; b; c]) =? 1)%nat
  = ((a =? b)%nat && (b =? c)%nat).
Proof.
  destruct (Nat.eqb_spec a b) as [Hab | Hab];
    destruct (Nat.eqb_spec b c) as [Hbc | Hbc]; cbn;
    repeat (destruct (Nat.eq_dec _ _); cbn); try reflexivity; congruence.
Qed.

Lemma check_covariances_three (c1 c2 c3 : ndarray) :
  check_covariances [c1; c2; c3]
  = if square_2d c1 && square_2d c2 && square_2d c3
    then Ok tt else Raise (NameError "InvalidInput").
Proof.
  unfold square_2d; cbn.
  destruct (ndim c1 =? 2)%nat, (shape_at c1 0 =? shape_at c1 1)%nat; cbn;
    try reflexivity;
  destruct (ndim c2 =? 2)%nat, (shape_at c2 0 =? shape_at c2 1)%nat; cbn;
    try reflexivity;
  destruct (ndim c3 =? 2)%nat, (shape_at c3 0 =? shape_at c3 1)%nat; cbn;
    reflexivity.
Qed.

(** The constructor succeeds exactly on the valid inputs, and every failure
    is the [NameError] of the unbound [InvalidInput]. *)
Lemma construct_decides (signal background observed : vec)
    (signal_cov background_cov data_cov : ndarray) :
  __init__ signal background observed signal_cov background_cov data_cov
  = if inputs_valid signal background observed signal_cov background_cov data_cov
    then Ok {| signal_yields := signal;
               background_yields := background;
               data := observed;
               signal_covariance := signal_cov;
               background_covariance := background_cov;
               data_covariance := data_cov;
               nbins := length observed;
               constraint_model :=
                 {| loc := repeat 0 (length observed);
                    scale := repeat 1 (length observed);
                    domain_start := 1 |} |}
    else Raise (NameError "InvalidInput").
Proof.
  unfold __init__, inputs_valid.
  rewrite one_distinct_length, check_covariances_three.
  rewrite (Nat.eqb_sym (shape_at data_cov 0)).
  destruct (length signal =? length background)%nat,
           (length background =? length observed)%nat; cbn; try reflexivity.
  destruct (square_2d data_cov), (square_2d signal_cov),
           (square_2d background_cov); cbn; try reflexivity.
  destruct (length observed =? shape_at data_cov 0)%nat; reflexivity.
Qed.

Lemma square_2d_shape (cov : ndarray) :
  square_2d cov = true -> shape cov = [shape_at cov 0; shape_at cov 0].
Proof.
  unfold square_2d, ndim, shape_at.
  destruct (shape cov) as [| r [| c [| x rest]]]; cbn; try discriminate.
  intros H; apply Nat.eqb_eq in H; now subst.
Qed.

Lemma construct_constructed (signal background observed : vec)
    (signal_cov background_cov data_cov : ndarray) (self : ConturLikelihood) :
  __init__ signal background observed signal_cov background_cov data_cov
  = Ok self ->
  constructed self
  /\ signal_yields self = signal /\ background_yields self = background
  /\ data self = observed /\ signal_covariance self = signal_cov
  /\ background_covariance self = background_cov
  /\ data_covariance self = data_cov.
Proof.
  rewrite construct_decides.
  destruct (inputs_valid _ _ _ _ _ _) eqn:Hv; [| discriminate].
  intros H; injection H as <-.
  unfold inputs_valid in Hv.
  repeat (apply andb_prop in Hv; destruct Hv as [Hv ?]).
  repeat match goal with
         | H : (_ =? _)%nat = true |- _ => apply Nat.eqb_eq in H
         end.
  repeat split; cbn; try assumption; try reflexivity.
  - match goal with
    | H : square_2d data_cov = true |- _ =>
        rewrite (square_2d_shape _ H); congruence
    end.
  - exists (shape_at signal_cov 0); now apply square_2d_shape.
  - exists (shape_at background_cov 0); now apply square_2d_shape.
Qed.

Example scenario_constructed :
  __init__ [5; 10] [20; 30] [25; 40]
    (identity_matrix 2) (identity_matrix 2) (identity_matrix 2)
  = Ok scenario.
Proof. rewrite construct_decides. reflexivity. Qed.

(** ** Construction-time errors *)

(** C5 (construction fails exactly on invalid inputs, by raising
    InvalidInputError): the constructor does fail on each kind of invalid
    input, but the exception is never [InvalidInput].  The module does not
    bind that name, so each of the three [raise] statements ends in
    [NameError]: shown here for yields of different lengths, for a
    covariance that is not square, for one that is not two-dimensional and
    for a data covariance whose dimension is not [N]. *)
Theorem construct_invalid_inputs_raise_NameError :
  __init__ [5; 10] [20] [25; 40]
    (identity_matrix 2) (identity_matrix 2) (identity_matrix 2)
  = Raise (NameError "InvalidInput")
  /\ __init__ [5; 10] [20; 30] [25; 40]
       (mk_ndarray [2; 3]%nat [1; 0; 0; 0; 1; 0]) (identity_matrix 2)
       (identity_matrix 2)
     = Raise (NameError "InvalidInput")
  /\ __init__ [5; 10] [20; 30] [25; 40]
       (identity_matrix 2) (mk_ndarray [2]%nat [1; 1]) (identity_matrix 2)
     = Raise (NameError "InvalidInput")
  /\ __init__ [5; 10] [20; 30] [25; 40]
       (identity_matrix 2) (identity_matrix 2) (identity_matrix 3)
     = Raise (NameError "InvalidInput").
Proof.
  repeat split; rewrite construct_decides; reflexivity.
Qed.

(** ** The optimizer's constraint *)

Section ConstraintFacts.

Variable prim : Primitives.

(** C4 (the constraint evaluates to
    [background_yields * (1 + background nuisances * relative uncertainties)]
    and comes with bounds [[0, +infinity)] and a Jacobian): the model exposes
    one constraint with lower bound 0, upper bound plus infinity and the
    Jacobian of [constraint], but [constraint] itself returns no value on any
    parameter vector: its free variable [absolute_uncertainties] is unbound
    and evaluating the body raises [NameError]. *)
Theorem constraint_raises_NameError (self : ConturLikelihood) (pars : vec) :
  constraint self pars = Raise (NameError "absolute_uncertainties")
  /\ map (fun c => nc_fun c pars) (constraints prim self)
     = [Raise (NameError "absolute_uncertainties")]
  /\ map (fun c => (nc_lb c, nc_ub c)) (constraints prim self)
     = [(Finite 0, PlusInfinity)]
  /\ map nc_jac (constraints prim self) = [jacobian prim (constraint self)].
Proof.
  assert (H : constraint self pars = Raise (NameError "absolute_uncertainties"))
    by reflexivity.
  repeat split; cbn; now rewrite ?H.
Qed.

End ConstraintFacts.

(** ** The log-likelihood and the objective *)

Lemma firstn_agree (n : nat) :
  forall d1 d2 : vec,
    (n <= length d1)%nat -> (n <= length d2)%nat ->
    (forall i, (i < n)%nat -> nth i d1 0 = nth i d2 0) ->
    firstn n d1 = firstn n d2.
Proof.
  induction n as [| n IH]; intros d1 d2 H1 H2 Hnth; [reflexivity |].
  destruct d1 as [| x d1]; [cbn in H1; lia |].
  destruct d2 as [| y d2]; [cbn in H2; lia |].
  cbn in *. f_equal.
  - apply (Hnth 0%nat); lia.
  - apply IH; try lia.
    intros i Hi. apply (Hnth (S i)); lia.
Qed.

Lemma bind_assoc {A B C : Type} (c : result A) (f : A -> result B)
    (k : B -> result C) :
  bind (bind c f) k = bind c (fun a => bind (f a) k).
Proof. destruct c; reflexivity. Qed.

Section LikelihoodFacts.

Variable prim : Primitives.

(** The objective's closure is the negated log-likelihood. *)
Lemma negative_loglikelihood_negates (self : ConturLikelihood)
    (expected : ExpectationType) (data_arg : option vec) (pars : vec) :
  negative_loglikelihood prim self (current_dataset self expected data_arg) pars
  = fmap Ropp (get_logpdf_func prim self expected data_arg pars).
Proof.
  unfold negative_loglikelihood, get_logpdf_func, fmap.
  destruct (MainModel_log_prob _ _ _ _) as [a | e]; cbn; [| reflexivity].
  destruct (ConstraintModel_log_prob _ _ _) as [b | e]; cbn; [| reflexivity].
  f_equal; lra.
Qed.

(** C8, as the code has it: the function returned by [get_logpdf_func] on a
    dataset [d] is [MainModel.log_prob(pars, d[:N]) +
    ConstraintModel.log_prob(pars)], on the first [N] entries of [d], which
    are [d] itself when it has at most [N] entries, as the stored
    observation has; the objective without gradient is its negation, and
    the value part of the objective with gradient is its negation whenever
    the gradient is returned.  No factor of two occurs. *)
Theorem logpdf_sum_and_objective_negation (self : ConturLikelihood)
    (expected : ExpectationType) (d : vec) (data_arg : option vec)
    (pars : vec) :
  get_logpdf_func prim self expected (Some d) pars
  = log_likelihood_on prim self (slice_to (length (data self)) d) pars
  /\ ((length d <= length (data self))%nat ->
      get_logpdf_func prim self expected (Some d) pars
      = log_likelihood_on prim self d pars)
  /\ get_logpdf_func prim self observed None pars
     = log_likelihood_on prim self (data self) pars
  /\ get_objective_function prim self expected data_arg false pars
     = fmap (fun l => Value (- l))
         (get_logpdf_func prim self expected data_arg pars)
  /\ fmap value_part
       (get_objective_function prim self expected data_arg true pars)
     = (l <- get_logpdf_func prim self expected data_arg pars ;;
        _ <- grad prim
               (fun p =>
                  fmap Ropp (get_logpdf_func prim self expected data_arg p))
               pars ;;
        Ok (- l)).
Proof.
  split; [reflexivity |].
  split.
  { intros Hlen. unfold get_logpdf_func, current_dataset, slice_to.
    now rewrite firstn_all2. }
  split.
  { unfold get_logpdf_func, current_dataset, slice_to. cbn [is_apriori].
    now rewrite firstn_all. }
  assert (Hnll : negative_loglikelihood prim self
                   (current_dataset self expected data_arg)
                 = fun p =>
                     fmap Ropp (get_logpdf_func prim self expected data_arg p)).
  { apply functional_extensionality. intros p.
    apply negative_loglikelihood_negates. }
  unfold get_objective_function. rewrite Hnll.
  split.
  - unfold fmap. rewrite bind_assoc. reflexivity.
  - unfold fmap. rewrite !bind_assoc.
    destruct (get_logpdf_func prim self expected data_arg pars) as [l | e];
      cbn; [| reflexivity].
    destruct (grad prim _ pars); reflexivity.
Qed.

(** C9: on a constructed model, without a data argument both builders
    condition on the stored observation in the observed and aposteriori
    modes and on the background yields in the apriori mode; with a data
    argument they condition on it, cut to its first [N] entries, in every
    mode. *)
Theorem dataset_by_expectation_mode (signal background observation : vec)
    (signal_cov background_cov data_cov : ndarray) (self : ConturLikelihood)
    (d : vec) (expected : ExpectationType) (do_grad : bool) :
  __init__ signal background observation signal_cov background_cov data_cov
  = Ok self ->
  (get_logpdf_func prim self observed None
   = log_likelihood_on prim self observation
   /\ get_logpdf_func prim self aposteriori None
      = log_likelihood_on prim self observation
   /\ get_logpdf_func prim self apriori None
      = log_likelihood_on prim self background
   /\ get_logpdf_func prim self expected (Some d)
      = log_likelihood_on prim self (slice_to (length observation) d))
  /\ (get_objective_function prim self observed None do_grad
      = objective_on prim self observation do_grad
      /\ get_objective_function prim self aposteriori None do_grad
         = objective_on prim self observation do_grad
      /\ get_objective_function prim self apriori None do_grad
         = objective_on prim self background do_grad
      /\ get_objective_function prim self expected (Some d) do_grad
         = objective_on prim self (slice_to (length observation) d) do_grad).
Proof.
  intros Hnew.
  destruct (construct_constructed _ _ _ _ _ _ Hnew)
    as (Hc & _ & Hb & Hd & _).
  assert (Hstored : slice_to (length (data self)) (data self) = data self)
    by apply firstn_all.
  assert (Hbkg : slice_to (length (data self)) (background_yields self)
                 = background_yields self)
    by (apply firstn_all2; rewrite (same_length_bd Hc); lia).
  rewrite <- Hd, <- Hb.
  unfold get_logpdf_func, get_objective_function, negative_loglikelihood,
    current_dataset, objective_on, log_likelihood_on,
    negative_log_likelihood_on.
  cbn [is_apriori]. rewrite Hstored, Hbkg.
  split; repeat split; destruct do_grad; reflexivity.
Qed.

(** C10: two datasets of at least [N] entries that agree on the first [N]
    give the same log-likelihood and the same objective: the entries after
    the first [N] are cut off and never read. *)
Theorem dataset_tail_ignored (self : ConturLikelihood)
    (expected : ExpectationType) (d1 d2 : vec) (do_grad : bool) (pars : vec) :
  (length (data self) <= length d1)%nat ->
  (length (data self) <= length d2)%nat ->
  (forall i, (i < length (data self))%nat -> nth i d1 0 = nth i d2 0) ->
  get_logpdf_func prim self expected (Some d1) pars
  = get_logpdf_func prim self expected (Some d2) pars
  /\ get_objective_function prim self expected (Some d1) do_grad pars
     = get_objective_function prim self expected (Some d2) do_grad pars.
Proof.
  intros H1 H2 Hnth.
  pose proof (@firstn_agree _ _ _ H1 H2 Hnth) as Hcut.
  unfold get_logpdf_func, get_objective_function, negative_loglikelihood,
    current_dataset, slice_to.
  rewrite Hcut. split; reflexivity.
Qed.

End LikelihoodFacts.

(** C8 fails as stated: on the two-bin scenario with a dataset of three
    entries the log-likelihood is computed on the first two; with
    primitives that sum the observations, the function returns 65 where the
    sum over the dataset as supplied is 72. *)
Lemma logpdf_counterexample :
  exists cut whole,
    get_logpdf_func constant_primitives scenario observed (Some [25; 40; 7])
      [1; 0; 0; 0; 0; 0; 0]
    = Ok cut
    /\ log_likelihood_on constant_primitives scenario [25; 40; 7]
         [1; 0; 0; 0; 0; 0; 0]
       = Ok whole
    /\ cut < whole.
Proof.
  eexists. eexists. split; [reflexivity |]. split; [reflexivity |].
  cbn. lra.
Qed.

Lemma dataset_by_expectation_mode_witness :
  (get_logpdf_func constant_primitives scenario observed None
   = log_likelihood_on constant_primitives scenario [25; 40]
   /\ get_logpdf_func constant_primitives scenario aposteriori None
      = log_likelihood_on constant_primitives scenario [25; 40]
   /\ get_logpdf_func constant_primitives scenario apriori None
      = log_likelihood_on constant_primitives scenario [20; 30]
   /\ get_logpdf_func constant_primitives scenario apriori (Some [1; 2; 3])
      = log_likelihood_on constant_primitives scenario (slice_to 2 [1; 2; 3]))
  /\ (get_objective_function constant_primitives scenario observed None true
      = objective_on constant_primitives scenario [25; 40] true
      /\ get_objective_function constant_primitives scenario aposteriori None
           true
         = objective_on constant_primitives scenario [25; 40] true
      /\ get_objective_function constant_primitives scenario apriori None true
         = objective_on constant_primitives scenario [20; 30] true
      /\ get_objective_function constant_primitives scenario apriori
           (Some [1; 2; 3]) true
         = objective_on constant_primitives scenario (slice_to 2 [1; 2; 3])
             true).
Proof.
  exact (@dataset_by_expectation_mode constant_primitives [5; 10] [20; 30]
           [25; 40] (identity_matrix 2) (identity_matrix 2)
           (identity_matrix 2) scenario [1; 2; 3] apriori true
           scenario_constructed).
Defined.

Lemma dataset_tail_ignored_witness :
  get_logpdf_func constant_primitives scenario observed
    (Some [25; 40; 7; 7]) [1; 0; 0; 0; 0; 0; 0]
  = get_logpdf_func constant_primitives scenario observed
      (Some [25; 40; 9]) [1; 0; 0; 0; 0; 0; 0]
  /\ get_objective_function constant_primitives scenario observed
       (Some [25; 40; 7; 7]) true [1; 0; 0; 0; 0; 0; 0]
     = get_objective_function constant_primitives scenario observed
         (Some [25; 40; 9]) true [1; 0; 0; 0; 0; 0; 0].
Proof.
  apply (@dataset_tail_ignored constant_primitives scenario observed
           [25; 40; 7; 7] [25; 40; 9] true [1; 0; 0; 0; 0; 0; 0]).
  - cbn; lia.
  - cbn; lia.
  - intros i Hi. cbn in Hi.
    destruct i as [| [| i]]; [reflexivity | reflexivity | lia].
Defined.

(** ** The configuration *)

Lemma Rgtb_true (x y : R) : y < x -> Rgtb x y = true.
Proof. unfold Rgtb; destruct (Rlt_dec y x); [reflexivity | contradiction]. Qed.

Lemma Rgtb_false (x y : R) : ~ y < x -> Rgtb x y = false.
Proof. unfold Rgtb; destruct (Rlt_dec y x); [contradiction | reflexivity]. Qed.

(** [is_alive] holds exactly when some signal yield is strictly positive. *)
Lemma is_alive_positive (self : ConturLikelihood) :
  is_alive self = true <-> Exists (fun x => 0 < x) (signal_yields self).
Proof.
  unfold is_alive. rewrite existsb_exists, Exists_exists.
  split; intros (x & Hin & Hx); exists x; (split; [assumption |]).
  - unfold Rgtb in Hx. destruct (Rlt_dec 0 x); [assumption | discriminate].
  - now apply Rgtb_true.
Qed.

Lemma length_positive_mask (s : vec) : length (positive_mask s) = length s.
Proof. apply length_map. Qed.

Lemma mask_index_same_length (a : vec) (mask : list bool) :
  length mask = length a -> mask_index a mask = Ok (select mask a).
Proof.
  intros H. unfold mask_index. now rewrite H, Nat.eqb_refl.
Qed.

Lemma length_select_same (mask : list bool) :
  forall a a' : vec,
    length a = length a' ->
    length (select mask a) = length (select mask a').
Proof.
  induction mask as [| m mask IH]; intros a a' Hlen; [reflexivity |].
  destruct a as [| x a], a' as [| x' a']; cbn in *; try lia.
  destruct m; cbn; auto.
Qed.

(** The ratios the code divides are those of the bins with positive signal. *)
Lemma In_selected_ratios (s : vec) :
  forall (b : vec) (r : R),
    length s = length b ->
    In r (zip_with Rdiv (select (positive_mask s) b) (select (positive_mask s) s))
    <-> exists i, (i < length s)%nat /\ 0 < nth i s 0
                  /\ r = nth i b 0 / nth i s 0.
Proof.
  induction s as [| x s IH]; intros b r Hlen.
  - cbn. split; [contradiction | intros (i & Hi & _); lia].
  - destruct b as [| y b]; [discriminate |].
    injection Hlen as Hlen. specialize (IH b r Hlen).
    cbn [positive_mask map select].
    destruct (Rlt_dec 0 x) as [Hpos | Hneg].
    + rewrite (Rgtb_true Hpos). cbn [zip_with In].
      rewrite IH. split.
      * intros [<- | (i & Hi & Hsi & Hr)].
        -- exists 0%nat. cbn. repeat split; [lia | assumption].
        -- exists (S i). cbn. repeat split; [lia | assumption | assumption].
      * intros ([| i] & Hi & Hsi & Hr); cbn in *.
        -- left. now symmetry.
        -- right. exists i. repeat split; [lia | assumption | assumption].
    + rewrite (Rgtb_false Hneg). rewrite IH. split.
      * intros (i & Hi & Hsi & Hr).
        exists (S i). cbn. repeat split; [lia | assumption | assumption].
      * intros ([| i] & Hi & Hsi & Hr); cbn in *; [contradiction |].
        exists i. repeat split; [lia | assumption | assumption].
Qed.

Lemma fold_left_Rmin_least (l : vec) :
  forall x : R,
    In (fold_left Rmin l x) (x :: l)
    /\ (forall y, In y (x :: l) -> fold_left Rmin l x <= y).
Proof.
  induction l as [| a l IH]; intros x; cbn [fold_left].
  - split; [now left | intros y [<- | []]; lra].
  - destruct (IH (Rmin x a)) as [Hin Hle]. split.
    + destruct Hin as [Heq | Hin]; [| now right; right].
      rewrite <- Heq. apply Rmin_case; [now left | now right; left].
    + intros y [<- | [<- | Hy]].
      * eapply Rle_trans; [apply Hle; now left | apply Rmin_l].
      * eapply Rle_trans; [apply Hle; now left | apply Rmin_r].
      * apply Hle; now right.
Qed.

Lemma np_min_least (a : vec) :
  a <> [] ->
  exists v, np_min a = Ok v /\ In v a /\ (forall y, In y a -> v <= y).
Proof.
  destruct a as [| x a]; [congruence | intros _].
  exists (fold_left Rmin a x). split; [reflexivity |].
  apply fold_left_Rmin_least.
Qed.

Lemma broadcast2_same_length (f : R -> R -> R) (xs ys : vec) :
  length xs = length ys -> broadcast2 f xs ys = Ok (zip_with f xs ys).
Proof.
  intros H. unfold broadcast2. now rewrite H, Nat.eqb_refl.
Qed.

Lemma positive_index (s : vec) :
  Exists (fun x => 0 < x) s ->
  exists i, (i < length s)%nat /\ 0 < nth i s 0.
Proof.
  intros H. apply Exists_nth in H. destruct H as (i & d & Hi & Hp).
  exists i. split; [assumption |].
  now rewrite (nth_indep s 0 d Hi).
Qed.

(** What [config] returns on a constructed model with some positive
    signal yield. *)
Lemma config_returns (self : ConturLikelihood) (allow_negative_signal : bool)
    (poi_upper_bound : R) :
  constructed self ->
  Exists (fun x => 0 < x) (signal_yields self) ->
  exists lowest,
    least_ratio (signal_yields self) (background_yields self) lowest
    /\ config self allow_negative_signal poi_upper_bound
       = Ok {| poi_index := 0;
               minimum_poi := - lowest;
               suggested_init := repeat 1 (length (data self) + 1);
               suggested_bounds :=
                 (Some (if allow_negative_signal then - lowest else 0),
                  Some poi_upper_bound)
                 :: repeat (None, None) (length (data self)) |}.
Proof.
  intros Hc Hpos.
  pose proof (same_length_sb Hc) as Hsb.
  set (s := signal_yields self) in *. set (b := background_yields self) in *.
  set (ratios := zip_with Rdiv (select (positive_mask s) b)
                   (select (positive_mask s) s)).
  assert (Hne : ratios <> []).
  { destruct (positive_index Hpos) as (i & Hi & Hsi).
    assert (Hin : In (nth i b 0 / nth i s 0) ratios).
    { apply In_selected_ratios; [assumption |]. now exists i. }
    intros Hnil. rewrite Hnil in Hin. contradiction. }
  destruct (np_min_least Hne) as (v & Hmin & Hin & Hle).
  exists v. split.
  - split.
    + now apply In_selected_ratios in Hin.
    + intros i Hi Hsi. apply Hle, In_selected_ratios; [assumption |].
      now exists i.
  - unfold config. fold s b. fold (positive_mask s).
    rewrite !mask_index_same_length
      by (rewrite length_positive_mask; congruence).
    cbn [bind].
    rewrite broadcast2_same_length
      by (apply length_select_same; now symmetry).
    cbn [bind]. fold ratios. rewrite Hmin. reflexivity.
Qed.

(** The number of entries [config] lists: one per bin, plus the POI. *)
Lemma config_sizes (self : ConturLikelihood) (allow_negative_signal : bool)
    (poi_upper_bound : R) (cfg : ModelConfig) :
  config self allow_negative_signal poi_upper_bound = Ok cfg ->
  length (suggested_init cfg) = (length (data self) + 1)%nat
  /\ length (suggested_bounds cfg) = (length (data self) + 1)%nat.
Proof.
  unfold config.
  destruct (mask_index (background_yields self) _); [| discriminate].
  destruct (mask_index (signal_yields self) _); [| discriminate].
  cbn [bind].
  destruct (broadcast2 Rdiv _ _); [| discriminate].
  cbn [bind].
  destruct (np_min _); [| discriminate].
  cbn [bind]. intros H; injection H as <-. cbn.
  rewrite !repeat_length. lia.
Qed.

Lemma select_without_signal (s : vec) :
  Forall (fun x => ~ 0 < x) s ->
  forall a : vec, select (positive_mask s) a = [].
Proof.
  induction 1 as [| x s Hx _ IH]; intros a; [reflexivity |].
  cbn [positive_mask map select]. rewrite (Rgtb_false Hx).
  destruct a; [reflexivity | apply IH].
Qed.

Lemma config_without_signal (self : ConturLikelihood)
    (allow_negative_signal : bool) (poi_upper_bound : R) :
  constructed self ->
  is_alive self = false ->
  config self allow_negative_signal poi_upper_bound
  = Raise (ValueError
      "zero-size array to reduction operation minimum which has no identity").
Proof.
  intros Hc Hdead.
  assert (Hnone : Forall (fun x => ~ 0 < x) (signal_yields self)).
  { apply Forall_forall. intros x Hin Hx.
    assert (Halive : is_alive self = true).
    { apply is_alive_positive, Exists_exists. now exists x. }
    congruence. }
  unfold config. fold (positive_mask (signal_yields self)).
  rewrite !mask_index_same_length
    by (rewrite length_positive_mask; pose proof (same_length_sb Hc);
        congruence).
  cbn [bind]. rewrite !(select_without_signal Hnone). reflexivity.
Qed.

(** C1, as the code has it: on a constructed model with at least one
    strictly positive signal yield, [config] returns a configuration whose
    POI index is 0, with as many initial values as bounds, at least one for
    the POI and one per bin, every initial value 1.0, the first bound the
    POI's (the derived lower bound, or 0.0 when negative signal is not
    allowed, up to [poi_upper_bound]) and every other bound unbounded.  On
    a constructed model without a strictly positive signal yield [config]
    raises the [ValueError] of [np.min] instead of returning. *)
Theorem config_of_model_with_signal (signal background observed : vec)
    (signal_cov background_cov data_cov : ndarray) (self : ConturLikelihood)
    (allow_negative_signal : bool) (poi_upper_bound : R) :
  __init__ signal background observed signal_cov background_cov data_cov
  = Ok self ->
  (Exists (fun x => 0 < x) signal ->
   exists cfg rest,
     config self allow_negative_signal poi_upper_bound = Ok cfg
     /\ poi_index cfg = 0%nat
     /\ nth_error (suggested_init cfg) (poi_index cfg) = Some 1
     /\ Forall (eq 1) (suggested_init cfg)
     /\ length (suggested_init cfg) = length (suggested_bounds cfg)
     /\ (length observed + 1 <= length (suggested_init cfg))%nat
     /\ suggested_bounds cfg
        = (Some (if allow_negative_signal then minimum_poi cfg else 0),
           Some poi_upper_bound) :: rest
     /\ Forall (eq (None, None)) rest)
  /\ (~ Exists (fun x => 0 < x) signal ->
      config self allow_negative_signal poi_upper_bound
      = Raise (ValueError
          "zero-size array to reduction operation minimum which has no identity")).
Proof.
  intros Hnew.
  destruct (construct_constructed _ _ _ _ _ _ Hnew) as (Hc & Hs & _ & Hd & _).
  rewrite <- Hs, <- Hd. split.
  - intros Hpos.
    destruct (config_returns allow_negative_signal poi_upper_bound Hc Hpos)
      as (lowest & _ & Hcfg).
    eexists; eexists. split; [exact Hcfg |]. cbn.
    rewrite Nat.add_1_r. cbn.
    rewrite !repeat_length.
    repeat split; try lia; apply Forall_forall; intros x Hx;
      [ destruct Hx as [Hx | Hx]; [now symmetry |] | ];
      apply repeat_spec in Hx; now symmetry.
  - intros Hnone. apply config_without_signal; [assumption |].
    destruct (is_alive self) eqn:Halive; [| reflexivity].
    apply is_alive_positive in Halive. contradiction.
Qed.

Lemma config_of_model_with_signal_witness :
  (Exists (fun x => 0 < x) [5; 10] ->
   exists cfg rest,
     config scenario false 10 = Ok cfg
     /\ poi_index cfg = 0%nat
     /\ nth_error (suggested_init cfg) (poi_index cfg) = Some 1
     /\ Forall (eq 1) (suggested_init cfg)
     /\ length (suggested_init cfg) = length (suggested_bounds cfg)
     /\ (2 + 1 <= length (suggested_init cfg))%nat
     /\ suggested_bounds cfg = (Some 0, Some 10) :: rest
     /\ Forall (eq (None, None)) rest)
  /\ (~ Exists (fun x => 0 < x) [5; 10] ->
      config scenario false 10
      = Raise (ValueError
          "zero-size array to reduction operation minimum which has no identity")).
Proof.
  exact (@config_of_model_with_signal [5; 10] [20; 30] [25; 40]
           (identity_matrix 2) (identity_matrix 2) (identity_matrix 2)
           scenario false 10 scenario_constructed).
Defined.

(** C1 fails as stated: a model without a positive signal yield is
    constructed, and [config] raises on it instead of returning; and on the
    two-bin scenario the configuration lists 3 initial values and 3 bounds,
    one per bin and one for the POI, not 3 * 2 + 1. *)
Lemma config_counterexample :
  (self <- __init__ [0] [20] [25]
             (identity_matrix 1) (identity_matrix 1) (identity_matrix 1) ;;
   config self true 10)
  = Raise (ValueError
      "zero-size array to reduction operation minimum which has no identity")
  /\ fmap (fun cfg => (length (suggested_init cfg), length (suggested_bounds cfg)))
       (config scenario true 10)
     = Ok (3%nat, 3%nat).
Proof.
  split.
  - rewrite construct_decides. cbn.
    unfold config. cbn.
    rewrite Rgtb_false by lra. reflexivity.
  - assert (Hc : constructed scenario)
      by apply (construct_constructed _ _ _ _ _ _ scenario_constructed).
    assert (Hpos : Exists (fun x => 0 < x) (signal_yields scenario))
      by (apply Exists_cons_hd; lra).
    destruct (config_returns true 10 Hc Hpos) as (lowest & _ & Hcfg).
    rewrite Hcfg. reflexivity.
Qed.

(** C7: on a constructed model with at least one strictly positive signal
    yield, the POI lower bound that [config] reports, as [minimum_poi] and
    as the lower end of the POI's bounds when negative signal is allowed, is
    minus the least [background_yields[i] / signal_yields[i]] over the bins
    [i] with [signal_yields[i] > 0]. *)
Theorem minimum_poi_is_least_ratio (signal background observed : vec)
    (signal_cov background_cov data_cov : ndarray) (self : ConturLikelihood)
    (allow_negative_signal : bool) (poi_upper_bound : R) :
  __init__ signal background observed signal_cov background_cov data_cov
  = Ok self ->
  Exists (fun x => 0 < x) signal ->
  exists lowest,
    least_ratio signal background lowest
    /\ fmap minimum_poi (config self allow_negative_signal poi_upper_bound)
       = Ok (- lowest)
    /\ fmap (fun cfg => hd_error (suggested_bounds cfg))
         (config self true poi_upper_bound)
       = Ok (Some (Some (- lowest), Some poi_upper_bound)).
Proof.
  intros Hnew Hpos.
  destruct (construct_constructed _ _ _ _ _ _ Hnew) as (Hc & Hs & Hb & _).
  rewrite <- Hs in Hpos.
  destruct (config_returns allow_negative_signal poi_upper_bound Hc Hpos)
    as (lowest & Hleast & Hcfg).
  destruct (config_returns true poi_upper_bound Hc Hpos)
    as (lowest' & Hleast' & Hcfg').
  assert (Hsame : lowest' = lowest).
  { destruct Hleast as ((i & Hi & Hsi & Hv) & Hle).
    destruct Hleast' as ((j & Hj & Hsj & Hv') & Hle').
    apply Rle_antisym.
    - rewrite Hv. now apply Hle'.
    - rewrite Hv'. now apply Hle. }
  subst lowest'. exists lowest.
  rewrite <- Hs, <- Hb. split; [assumption |].
  rewrite Hcfg, Hcfg'. split; reflexivity.
Qed.

Lemma minimum_poi_is_least_ratio_witness :
  exists lowest,
    least_ratio [5; 10] [20; 30] lowest
    /\ fmap minimum_poi (config scenario true 10) = Ok (- lowest)
    /\ fmap (fun cfg => hd_error (suggested_bounds cfg))
         (config scenario true 10)
       = Ok (Some (Some (- lowest), Some 10)).
Proof.
  apply (@minimum_poi_is_least_ratio [5; 10] [20; 30] [25; 40]
           (identity_matrix 2) (identity_matrix 2) (identity_matrix 2)
           scenario true 10 scenario_constructed).
  apply Exists_cons_hd. lra.
Defined.

(** On the scenario the bound is [-3]: the ratios are [20/5] and [30/10]. *)
Example scenario_minimum_poi :
  fmap minimum_poi (config scenario true 10) = Ok (- 3).
Proof.
  unfold config. cbn.
  rewrite !Rgtb_true by lra. cbn.
  f_equal. f_equal. unfold Rmin.
  destruct (Rle_dec _ _); lra.
Qed.

(** ** The mean response *)

Lemma tabulates_eq (l : vec) (n : nat) (g : nat -> R) :
  tabulates l n g -> l = map g (seq 0 n).
Proof.
  intros [Hlen Hnth].
  apply (nth_ext l (map g (seq 0 n)) 0 (g 0%nat)).
  - now rewrite length_map, length_seq.
  - intros i Hi. rewrite Hlen in Hi.
    rewrite map_nth, seq_nth by assumption. now apply Hnth.
Qed.

Lemma tabulates_self (l : vec) :
  tabulates l (length l) (fun i => nth i l 0).
Proof. split; [reflexivity | intros; reflexivity]. Qed.

Lemma tabulates_map_seq (n : nat) (g : nat -> R) :
  tabulates (map g (seq 0 n)) n g.
Proof.
  split; [now rewrite length_map, length_seq |].
  intros i Hi.
  rewrite (nth_indep _ 0 (g 0%nat)) by now rewrite length_map, length_seq.
  now rewrite map_nth, seq_nth.
Qed.

Lemma tabulates_map (f : R -> R) (l : vec) (n : nat) (g : nat -> R) :
  tabulates l n g -> tabulates (map f l) n (fun i => f (g i)).
Proof.
  intros [Hlen Hnth]. split; [now rewrite length_map |].
  intros i Hi.
  rewrite (nth_indep _ 0 (f 0)) by (rewrite length_map; lia).
  rewrite map_nth. now rewrite Hnth.
Qed.

Lemma tabulates_zip_with (f : R -> R -> R) (n : nat) :
  forall (xs ys : vec) (g h : nat -> R),
    tabulates xs n g -> tabulates ys n h ->
    tabulates (zip_with f xs ys) n (fun i => f (g i) (h i)).
Proof.
  induction n as [| n IH]; intros xs ys g h [Hx Hg] [Hy Hh].
  - destruct xs; [| discriminate]. split; [reflexivity | intros; lia].
  - destruct xs as [| x xs]; [discriminate |].
    destruct ys as [| y ys]; [discriminate |].
    injection Hx as Hx. injection Hy as Hy.
    destruct (IH xs ys (fun i => g (S i)) (fun i => h (S i))) as [Hlen Hnth].
    + split; [assumption | intros i Hi; apply (Hg (S i)); lia].
    + split; [assumption | intros i Hi; apply (Hh (S i)); lia].
    + split; [cbn; now rewrite Hlen |].
      intros [| i] Hi; cbn.
      * rewrite <- (Hg 0%nat), <- (Hh 0%nat) by lia. reflexivity.
      * apply Hnth. lia.
Qed.

Lemma tabulates_block (l : vec) (m n : nat) :
  (m + n <= length l)%nat ->
  tabulates (firstn n (skipn m l)) n (fun i => nth (m + i) l 0).
Proof.
  intros Hlen. split.
  - rewrite length_firstn, length_skipn. lia.
  - intros i Hi. rewrite nth_firstn, nth_skipn.
    apply Nat.ltb_lt in Hi. now rewrite Hi.
Qed.

Lemma tabulates_last_block (l : vec) (m n : nat) :
  length l = (m + n)%nat ->
  tabulates (skipn m l) n (fun i => nth (m + i) l 0).
Proof.
  intros Hlen. split.
  - rewrite length_skipn. lia.
  - intros i Hi. now rewrite nth_skipn.
Qed.

Lemma array_split3_thirds (l : vec) (n : nat) :
  length l = (3 * n)%nat ->
  array_split3 l = (firstn n l, firstn n (skipn n l), skipn (n + n) l).
Proof.
  intros Hlen. unfold array_split3.
  rewrite Hlen, (Nat.mul_comm 3 n), Nat.div_mul, Nat.Div0.mod_mul by lia.
  cbn. now rewrite Nat.add_0_r.
Qed.

Lemma diagonal_square (cov : ndarray) (n : nat) :
  shape cov = [n; n] ->
  diagonal cov = Ok (map (fun i => entry cov i i) (seq 0 n)).
Proof.
  intros H. unfold diagonal. now rewrite H, Nat.min_id.
Qed.

Lemma broadcast2_tabulated (f : R -> R -> R) (xs ys : vec) (n : nat)
    (g h : nat -> R) :
  tabulates xs n g -> tabulates ys n h ->
  broadcast2 f xs ys = Ok (zip_with f xs ys)
  /\ tabulates (zip_with f xs ys) n (fun i => f (g i) (h i)).
Proof.
  intros Hx Hy. split.
  - apply broadcast2_same_length.
    destruct Hx as [-> _], Hy as [-> _]. reflexivity.
  - now apply tabulates_zip_with.
Qed.

(** [lam] on a constructed model whose three covariances are all of
    dimension [N], at a parameter vector of [3 N + 1] entries. *)
Lemma lam_returns (self : ConturLikelihood) (pars : vec) :
  constructed self ->
  shape (signal_covariance self) = [length (data self); length (data self)] ->
  shape (background_covariance self)
  = [length (data self); length (data self)] ->
  length pars = (3 * length (data self) + 1)%nat ->
  lam self pars = Ok (mean_response self pars).
Proof.
  intros Hc Hsc Hbc Hlen.
  pose proof (same_length_sb Hc) as Hsb.
  pose proof (same_length_bd Hc) as Hbd.
  pose proof (data_cov_shape Hc) as Hdc.
  set (n := length (data self)) in *.
  destruct pars as [| mu rest]; [cbn in Hlen; lia |].
  assert (Hrest : length rest = (3 * n)%nat) by (cbn in Hlen; lia).
  unfold lam. cbn [item0 bind slice_from1 skipn].
  rewrite (@array_split3_thirds _ _ Hrest).
  rewrite (@diagonal_square _ _ Hsc), (@diagonal_square _ _ Hbc),
    (@diagonal_square _ _ Hdc).
  cbn [bind].
  assert (Ts : tabulates (map (Rmult mu) (signal_yields self)) n
                 (fun i => mu * nth i (signal_yields self) 0)).
  { apply tabulates_map. rewrite <- Hbd, <- Hsb. apply tabulates_self. }
  assert (Tb : tabulates (background_yields self) n
                 (fun i => nth i (background_yields self) 0)).
  { rewrite <- Hbd. apply tabulates_self. }
  destruct (broadcast2_tabulated Rplus Ts Tb) as [-> T0]. cbn [bind].
  assert (Tp1 : tabulates (firstn n rest) n (fun i => nth i rest 0)).
  { apply (@tabulates_block rest 0 n). lia. }
  assert (Tp2 : tabulates (firstn n (skipn n rest)) n
                  (fun i => nth (n + i) rest 0)).
  { apply tabulates_block. lia. }
  assert (Tp3 : tabulates (skipn (n + n) rest) n
                  (fun i => nth (n + n + i) rest 0)).
  { apply tabulates_last_block. lia. }
  pose proof (tabulates_map sqrt
                (tabulates_map_seq n (fun i => entry (signal_covariance self) i i)))
    as Tu1.
  pose proof (tabulates_map sqrt
                (tabulates_map_seq n
                   (fun i => entry (background_covariance self) i i)))
    as Tu2.
  pose proof (tabulates_map sqrt
                (tabulates_map_seq n (fun i => entry (data_covariance self) i i)))
    as Tu3.
  destruct (broadcast2_tabulated Rmult Tp1 Tu1) as [-> T1]. cbn [bind].
  destruct (broadcast2_tabulated Rplus T0 T1) as [-> S1]. cbn [bind].
  destruct (broadcast2_tabulated Rmult Tp2 Tu2) as [-> T2]. cbn [bind].
  destruct (broadcast2_tabulated Rplus S1 T2) as [-> S2]. cbn [bind].
  destruct (broadcast2_tabulated Rmult Tp3 Tu3) as [-> T3]. cbn [bind].
  destruct (broadcast2_tabulated Rplus S2 T3) as [-> S3].
  f_equal. rewrite (tabulates_eq S3). reflexivity.
Qed.

Lemma length_mean_response (self : ConturLikelihood) (pars : vec) :
  length (mean_response self pars) = length (data self).
Proof. unfold mean_response. now rewrite length_map, length_seq. Qed.

(** C6, as the code has it: on a constructed model whose signal and
    background covariances are of dimension [N] like the data covariance,
    with no negative entry on the diagonal of any of the three, and at a
    parameter vector of [3 N + 1] entries, [lam] is, bin by bin,
    [pars[0] * signal_i + background_i] plus each nuisance block times the
    square root of the diagonal of its covariance; with all nuisance
    parameters zero and POI [mu] the main model's expected data is exactly
    [mu * signal_yields + background_yields]. *)
Theorem lam_linear_response (signal background observed : vec)
    (signal_cov background_cov data_cov : ndarray) (self : ConturLikelihood)
    (mu : R) (pars : vec) :
  __init__ signal background observed signal_cov background_cov data_cov
  = Ok self ->
  shape signal_cov = [length observed; length observed] ->
  shape background_cov = [length observed; length observed] ->
  nonnegative_diagonal signal_cov ->
  nonnegative_diagonal background_cov ->
  nonnegative_diagonal data_cov ->
  length pars = (3 * length observed + 1)%nat ->
  lam self pars = Ok (mean_response self pars)
  /\ MainModel_expected_data (main_model self)
       (mu :: repeat 0 (3 * length observed))
     = Ok (zip_with (fun s b => mu * s + b) signal background).
Proof.
  intros Hnew Hsc Hbc _ _ _ Hlen.
  destruct (construct_constructed _ _ _ _ _ _ Hnew)
    as (Hc & Hs & Hb & Hd & Hsc' & Hbc' & _).
  rewrite <- Hd, <- Hsc' in Hsc. rewrite <- Hd, <- Hbc' in Hbc.
  rewrite <- Hd in Hlen. rewrite <- Hd, <- Hs, <- Hb.
  split; [now apply lam_returns |].
  unfold MainModel_expected_data, main_model.
  rewrite lam_returns; try assumption;
    [| cbn; rewrite repeat_length; lia].
  f_equal.
  assert (T : tabulates
                (zip_with (fun s b => mu * s + b) (signal_yields self)
                   (background_yields self))
                (length (data self))
                (fun i => mu * nth i (signal_yields self) 0
                          + nth i (background_yields self) 0)).
  { apply (tabulates_zip_with (fun s b => mu * s + b)).
    - rewrite <- (same_length_bd Hc), <- (same_length_sb Hc).
      apply tabulates_self.
    - rewrite <- (same_length_bd Hc). apply tabulates_self. }
  rewrite (tabulates_eq T). unfold mean_response.
  apply map_ext. intros i. cbn [nth Nat.add].
  rewrite !nth_repeat. ring.
Qed.

Lemma identity_nonnegative_diagonal :
  nonnegative_diagonal (identity_matrix 2).
Proof.
  intros i Hi. cbn in Hi.
  destruct i as [| [| i]]; [cbn; lra | cbn; lra | lia].
Qed.

Lemma lam_linear_response_witness :
  lam scenario [1; 0; 0; 0; 0; 0; 0]
  = Ok (mean_response scenario [1; 0; 0; 0; 0; 0; 0])
  /\ MainModel_expected_data (main_model scenario) (1 :: repeat 0 (3 * 2))
     = Ok (zip_with (fun s b => 1 * s + b) [5; 10] [20; 30]).
Proof.
  apply (@lam_linear_response [5; 10] [20; 30] [25; 40]
           (identity_matrix 2) (identity_matrix 2) (identity_matrix 2)
           scenario 1 [1; 0; 0; 0; 0; 0; 0] scenario_constructed);
    try reflexivity; apply identity_nonnegative_diagonal.
Defined.

(** C6 fails as stated: the constructor compares only the data covariance
    with the number of bins, so it accepts two bins with a 3 x 3 signal
    covariance; on that model the main model has no expected data, [lam]
    raises on the product of 2 nuisance parameters with 3 uncertainties. *)
Lemma lam_counterexample :
  (self <- __init__ [5; 10] [20; 30] [25; 40]
             (identity_matrix 3) (identity_matrix 2) (identity_matrix 2) ;;
   MainModel_expected_data (main_model self) [1; 0; 0; 0; 0; 0; 0])
  = Raise broadcast_error.
Proof.
  rewrite construct_decides. cbn. reflexivity.
Qed.

(** The mean expected by the scenario at [mu = 1] and zero nuisances is the
    observation, [[25; 40]]. *)
Example scenario_expected_mean :
  exists mean,
    lam scenario [1; 0; 0; 0; 0; 0; 0] = Ok mean
    /\ nth 0 mean 0 = 25 /\ nth 1 mean 0 = 40.
Proof.
  eexists. split; [reflexivity |]. cbn. split; ring.
Qed.

(** ** Expected data and samples *)

(** [expected_data] on a constructed model whose three covariances are all
    of dimension [N], at a parameter vector of [3 N + 1] entries: the
    auxiliary part is the prior mean the constructor gave the constraint
    model, [N] zeros. *)
Lemma expected_data_returns (self : ConturLikelihood) (pars : vec) :
  constructed self ->
  shape (signal_covariance self) = [length (data self); length (data self)] ->
  shape (background_covariance self)
  = [length (data self); length (data self)] ->
  length pars = (3 * length (data self) + 1)%nat ->
  expected_data self pars false = Ok (mean_response self pars)
  /\ expected_data self pars true
     = Ok (mean_response self pars ++ repeat 0 (length (data self))).
Proof.
  intros Hc Hsc Hbc Hlen.
  unfold expected_data, MainModel_expected_data, main_model,
    ConstraintModel_expected_data.
  rewrite (@lam_returns _ _ Hc Hsc Hbc Hlen), (prior_loc Hc).
  split; reflexivity.
Qed.

(** C3 (with auxiliary data, [expected_data] is the mean vector of length
    [N] followed by the constraint model's zero vector of length [3 N]): on
    the two-bin scenario, at every parameter vector of [3 * 2 + 1] entries,
    [expected_data] without auxiliary data is the mean vector [lam(pars)],
    and with auxiliary data it is that vector followed by 2 zeros, 4 entries
    in all and not 8: the constructor gives the constraint model one prior
    per bin. *)
Theorem expected_data_appends_N_zeros (mu t1 t2 t3 t4 t5 t6 : R) :
  let pars := [mu; t1; t2; t3; t4; t5; t6] in
  lam scenario pars = Ok (mean_response scenario pars)
  /\ expected_data scenario pars false = Ok (mean_response scenario pars)
  /\ expected_data scenario pars true
     = Ok (mean_response scenario pars ++ [0; 0])
  /\ fmap (@length R) (expected_data scenario pars true) = Ok 4%nat.
Proof.
  intros pars.
  assert (Hc : constructed scenario)
    by apply (construct_constructed _ _ _ _ _ _ scenario_constructed).
  assert (Hlam : lam scenario pars = Ok (mean_response scenario pars))
    by (apply lam_returns; [assumption | reflexivity ..]).
  destruct (@expected_data_returns scenario pars Hc) as [Hmain Haux];
    try reflexivity.
  split; [assumption |]. split; [assumption |]. split; [assumption |].
  rewrite Haux. reflexivity.
Qed.

Lemma draw_row_length {G A : Type} (draw : G -> A -> R * G) (l : list A) :
  forall g, length (fst (draw_row draw g l)) = length l.
Proof.
  induction l as [| x l IH]; intros g; [reflexivity |].
  cbn [draw_row]. destruct (draw g x) as [v g1].
  specialize (IH g1). destruct (draw_row draw g1 l) as [vs g2].
  cbn in *. now rewrite IH.
Qed.

Lemma draw_rows_lengths {G A : Type} (draw : G -> A -> R * G) (l : list A)
    (n : nat) :
  forall g,
    map (@length R) (fst (draw_rows draw g l n)) = repeat (length l) n.
Proof.
  induction n as [| n IH]; intros g; [reflexivity |].
  cbn [draw_rows]. pose proof (draw_row_length draw l g) as Hrow.
  destruct (draw_row draw g l) as [row g1].
  specialize (IH g1). destruct (draw_rows draw g1 l n) as [rows g2].
  cbn in *. now rewrite Hrow, IH.
Qed.

Lemma rows_of_length (rows : list vec) (n k : nat) :
  map (@length R) rows = repeat n k ->
  length rows = k /\ Forall (fun row => length row = n) rows.
Proof.
  revert rows. induction k as [| k IH]; intros rows H.
  - destruct rows; [split; [reflexivity | constructor] | discriminate].
  - destruct rows as [| row rows]; [discriminate |].
    cbn in H. injection H as Hrow Hrows.
    destruct (IH rows Hrows) as [Hlen Hall].
    split; [cbn; now rewrite Hlen | now constructor].
Qed.

Lemma zip_with_app_lengths (k : nat) :
  forall (a b : list vec) (m n : nat),
    map (@length R) a = repeat m k ->
    map (@length R) b = repeat n k ->
    map (@length R) (zip_with (@app R) a b) = repeat (m + n)%nat k.
Proof.
  induction k as [| k IH]; intros a b m n Ha Hb.
  - destruct a; [reflexivity | discriminate].
  - destruct a as [| x a]; [discriminate |].
    destruct b as [| y b]; [discriminate |].
    cbn in *. injection Ha as Hx Ha. injection Hb as Hy Hb.
    rewrite length_app, Hx, Hy. f_equal. now apply IH.
Qed.

Lemma hstack_rows_same_length (a b : list vec) :
  length a = length b -> hstack_rows a b = Ok (zip_with (@app R) a b).
Proof.
  intros H. unfold hstack_rows. now rewrite H, Nat.eqb_refl.
Qed.

Section SamplerFacts.

Variable prim : Primitives.

(** The sampler on a constructed model whose three covariances are all of
    dimension [N], at a parameter vector of [3 N + 1] entries, from the
    generator state [g]: the main model draws [k] rows of [N] counts, the
    constraint model then draws [k] rows of [N] variates, one per prior,
    and with auxiliary data the rows are joined pairwise. *)
Lemma sampler_returns (self : ConturLikelihood) (pars : vec) (k : nat)
    (g : rng prim) :
  constructed self ->
  shape (signal_covariance self) = [length (data self); length (data self)] ->
  shape (background_covariance self)
  = [length (data self); length (data self)] ->
  length pars = (3 * length (data self) + 1)%nat ->
  exists main_rows g1 aux_rows g2,
    MainModel_sample prim (main_model self) pars k g = Ok (main_rows, g1)
    /\ ConstraintModel_sample prim (constraint_model self) (slice_from1 pars)
         k g1
       = Ok (aux_rows, g2)
    /\ map (@length R) main_rows = repeat (length (data self)) k
    /\ map (@length R) aux_rows = repeat (length (data self)) k
    /\ get_sampler prim self pars k false g = Ok (main_rows, g1)
    /\ get_sampler prim self pars k true g
       = Ok (zip_with (@app R) main_rows aux_rows, g2).
Proof.
  intros Hc Hsc Hbc Hlen.
  pose proof (@lam_returns _ _ Hc Hsc Hbc Hlen) as Hlam.
  pose proof (draw_rows_lengths (poisson_rvs prim)
                (mean_response self pars) k g) as Hmain.
  rewrite length_mean_response in Hmain.
  destruct (draw_rows (poisson_rvs prim) g (mean_response self pars) k)
    as [main_rows g1] eqn:Hdraw.
  pose proof (draw_rows_lengths
                (fun g0 '(l, s) => normal_rvs prim g0 l s)
                (combine (loc (constraint_model self))
                   (scale (constraint_model self))) k g1) as Haux.
  assert (Hcomb : length (combine (loc (constraint_model self))
                            (scale (constraint_model self)))
                  = length (data self))
    by (rewrite length_combine, (prior_loc Hc), (prior_scale Hc),
          !repeat_length; apply Nat.min_id).
  rewrite Hcomb in Haux.
  destruct (draw_rows (fun g0 '(l, s) => normal_rvs prim g0 l s) g1
              (combine (loc (constraint_model self))
                 (scale (constraint_model self))) k)
    as [aux_rows g2] eqn:Hdraw_aux.
  cbn [fst] in Hmain, Haux.
  exists main_rows, g1, aux_rows, g2.
  assert (Hm : MainModel_sample prim (main_model self) pars k g
               = Ok (main_rows, g1)).
  { unfold MainModel_sample, main_model. rewrite Hlam. cbn [bind].
    now rewrite Hdraw. }
  assert (Ha : ConstraintModel_sample prim (constraint_model self)
                 (slice_from1 pars) k g1
               = Ok (aux_rows, g2)).
  { unfold ConstraintModel_sample. now rewrite Hdraw_aux. }
  split; [assumption |]. split; [assumption |].
  split; [assumption |]. split; [assumption |].
  unfold get_sampler, sampler. rewrite Hm. cbn [bind].
  split; [reflexivity |].
  rewrite Ha. cbn [bind].
  rewrite hstack_rows_same_length; [reflexivity |].
  destruct (@rows_of_length _ _ _ Hmain) as [-> _].
  destruct (@rows_of_length _ _ _ Haux) as [-> _]. reflexivity.
Qed.

(** C2 (with auxiliary data the sampler returns [k] rows of length
    [N + 3 N]): on the two-bin scenario, at every parameter vector of
    [3 * 2 + 1] entries, for every sample size [k] and every state of the
    generator, the sampler returns [k] rows of 2 entries without auxiliary
    data, and with auxiliary data [k] rows of 4 entries, not 8: the
    constructor gives the constraint model one prior per bin. *)
Theorem sampler_rows_have_N_auxiliary_entries (g : rng prim) (k : nat)
    (mu t1 t2 t3 t4 t5 t6 : R) :
  let pars := [mu; t1; t2; t3; t4; t5; t6] in
  fmap (fun drawn => map (@length R) (fst drawn))
    (get_sampler prim scenario pars k false g)
  = Ok (repeat 2%nat k)
  /\ fmap (fun drawn => map (@length R) (fst drawn))
       (get_sampler prim scenario pars k true g)
     = Ok (repeat 4%nat k).
Proof.
  intros pars.
  assert (Hc : constructed scenario)
    by apply (construct_constructed _ _ _ _ _ _ scenario_constructed).
  destruct (@sampler_returns scenario pars k g Hc)
    as (main_rows & g1 & aux_rows & g2 & _ & _ & Hmain & Haux & Hfalse & Htrue);
    try reflexivity.
  rewrite Hfalse, Htrue. cbn [fmap bind fst].
  split; [now rewrite Hmain |].
  now rewrite (@zip_with_app_lengths k main_rows aux_rows 2 2 Hmain Haux).
Qed.

End SamplerFacts.

(** ** Further properties of the constructor and of the configuration *)

Lemma shape_square_2d (cov : ndarray) (n : nat) :
  shape cov = [n; n] -> square_2d cov = true.
Proof.
  intros H. unfold square_2d, ndim, shape_at. rewrite H. cbn.
  apply Nat.eqb_refl.
Qed.

(** X1: the constructor returns a model exactly when the three yield vectors
    have one common length [N], the data covariance has shape [N x N] and
    the signal and background covariances are two-dimensional and square, of
    any dimension.  Nothing else is inspected: neither the dimension of the
    signal and background covariances nor any value. *)
Theorem init_accepts_exactly_valid_inputs (signal background observed : vec)
    (signal_cov background_cov data_cov : ndarray) :
  (exists self,
      __init__ signal background observed signal_cov background_cov data_cov
      = Ok self)
  <-> (length signal = length background
       /\ length background = length observed
       /\ shape data_cov = [length observed; length observed]
       /\ (exists n, shape signal_cov = [n; n])
       /\ (exists n, shape background_cov = [n; n])).
Proof.
  split.
  - intros (self & Hnew).
    destruct (construct_constructed _ _ _ _ _ _ Hnew)
      as (Hc & <- & <- & <- & <- & <- & <-).
    destruct Hc. repeat split; assumption.
  - intros (Hsb & Hbd & Hdc & (n & Hsc) & (m & Hbc)).
    rewrite construct_decides.
    assert (Hv : inputs_valid signal background observed signal_cov
                   background_cov data_cov = true).
    { unfold inputs_valid.
      rewrite (@shape_square_2d _ _ Hdc), (@shape_square_2d _ _ Hsc),
        (@shape_square_2d _ _ Hbc).
      unfold shape_at. rewrite Hdc, Hsb, Hbd. cbn [nth].
      now rewrite !Nat.eqb_refl. }
    rewrite Hv. eexists. reflexivity.
Qed.

(** X2: on a constructed model [config] returns a configuration exactly
    when [is_alive] holds; on a model that is not alive it raises the
    [ValueError] of [np.min] on an empty selection, whatever its
    arguments. *)
Theorem config_returns_iff_alive (signal background observed : vec)
    (signal_cov background_cov data_cov : ndarray) (self : ConturLikelihood)
    (allow_negative_signal : bool) (poi_upper_bound : R) :
  __init__ signal background observed signal_cov background_cov data_cov
  = Ok self ->
  (is_alive self = true
   <-> exists cfg, config self allow_negative_signal poi_upper_bound = Ok cfg)
  /\ (is_alive self = false ->
      config self allow_negative_signal poi_upper_bound
      = Raise (ValueError
          "zero-size array to reduction operation minimum which has no identity")).
Proof.
  intros Hnew.
  destruct (construct_constructed _ _ _ _ _ _ Hnew) as (Hc & _).
  split; [split |].
  - intros Halive. apply is_alive_positive in Halive.
    destruct (config_returns allow_negative_signal poi_upper_bound Hc Halive)
      as (lowest & _ & Hcfg).
    eexists. exact Hcfg.
  - intros (cfg & Hcfg).
    destruct (is_alive self) eqn:Halive; [reflexivity |].
    rewrite (config_without_signal allow_negative_signal poi_upper_bound
               Hc Halive) in Hcfg.
    discriminate.
  - now apply config_without_signal.
Qed.

Lemma config_returns_iff_alive_witness :
  (is_alive scenario = true <-> exists cfg, config scenario true 10 = Ok cfg)
  /\ (is_alive scenario = false ->
      config scenario true 10
      = Raise (ValueError
          "zero-size array to reduction operation minimum which has no identity")).
Proof.
  exact (@config_returns_iff_alive [5; 10] [20; 30] [25; 40]
           (identity_matrix 2) (identity_matrix 2) (identity_matrix 2)
           scenario true 10 scenario_constructed).
Defined.

(** X4: the derived POI lower bound is strictly negative exactly when every
    bin with a strictly positive signal yield has a strictly positive
    background yield. *)
Theorem minimum_poi_negative_iff_background_positive
    (signal background observed : vec)
    (signal_cov background_cov data_cov : ndarray) (self : ConturLikelihood)
    (allow_negative_signal : bool) (poi_upper_bound : R) :
  __init__ signal background observed signal_cov background_cov data_cov
  = Ok self ->
  Exists (fun x => 0 < x) signal ->
  exists cfg,
    config self allow_negative_signal poi_upper_bound = Ok cfg
    /\ (minimum_poi cfg < 0
        <-> forall i, (i < length signal)%nat -> 0 < nth i signal 0 ->
                      0 < nth i background 0).
Proof.
  intros Hnew Hpos.
  destruct (construct_constructed _ _ _ _ _ _ Hnew) as (Hc & Hs & Hb & _).
  rewrite <- Hs in Hpos.
  destruct (config_returns allow_negative_signal poi_upper_bound Hc Hpos)
    as (lowest & ((j & Hj & Hsj & Hv) & Hle) & Hcfg).
  rewrite Hs, Hb in *.
  eexists. split; [exact Hcfg |]. cbn [minimum_poi]. split.
  - intros Hneg i Hi Hsi.
    specialize (Hle i Hi Hsi).
    assert (Hb_i : nth i background 0
                   = nth i background 0 / nth i signal 0 * nth i signal 0)
      by (field; lra).
    rewrite Hb_i. apply Rmult_lt_0_compat; lra.
  - intros Hall.
    assert (0 < lowest); [| lra].
    rewrite Hv. apply Rdiv_lt_0_compat; [now apply Hall | assumption].
Qed.

Lemma minimum_poi_negative_iff_background_positive_witness :
  exists cfg,
    config scenario true 10 = Ok cfg
    /\ (minimum_poi cfg < 0
        <-> forall i, (i < 2)%nat -> 0 < nth i [5; 10] 0 ->
                      0 < nth i [20; 30] 0).
Proof.
  apply (@minimum_poi_negative_iff_background_positive [5; 10] [20; 30]
           [25; 40] (identity_matrix 2) (identity_matrix 2)
           (identity_matrix 2) scenario true 10 scenario_constructed).
  apply Exists_cons_hd. lra.
Defined.

(** ** Further properties of the mean response *)

Lemma diagonal_same (a b : ndarray) :
  same_diagonal a b -> diagonal a = diagonal b.
Proof.
  intros [Hshape Hdiag]. unfold diagonal, entry, shape_at in *.
  rewrite <- Hshape in *.
  destruct (shape a) as [| r [| c [| x rest]]]; try reflexivity.
  f_equal. apply map_ext_in. intros i Hi. apply in_seq in Hi.
  apply Hdiag. cbn. lia.
Qed.

(** X5: [lam] reads the covariances only through their diagonals: two
    models with the same yields whose covariances have the same shapes and
    the same diagonal entries have the same mean response at every
    parameter vector, whatever their entries off the diagonal. *)
Theorem lam_reads_only_diagonals (self other : ConturLikelihood) (pars : vec) :
  signal_yields self = signal_yields other ->
  background_yields self = background_yields other ->
  same_diagonal (signal_covariance self) (signal_covariance other) ->
  same_diagonal (background_covariance self) (background_covariance other) ->
  same_diagonal (data_covariance self) (data_covariance other) ->
  lam self pars = lam other pars.
Proof.
  intros Hs Hb Hsc Hbc Hdc. unfold lam.
  rewrite Hs, Hb.
  rewrite (diagonal_same Hsc), (diagonal_same Hbc), (diagonal_same Hdc).
  reflexivity.
Qed.

Lemma identity_same_diagonal : same_diagonal (identity_matrix 2)
                                 (mk_ndarray [2; 2]%nat [1; 7; 7; 1]).
Proof.
  split; [reflexivity |].
  intros i Hi. cbn in Hi.
  destruct i as [| [| i]]; [reflexivity | reflexivity | lia].
Qed.

Lemma same_diagonal_refl (a : ndarray) : same_diagonal a a.
Proof. split; [reflexivity | intros; reflexivity]. Qed.

Lemma lam_reads_only_diagonals_witness :
  lam scenario [1; 2; 3; 4; 5; 6; 7]
  = lam correlated_scenario [1; 2; 3; 4; 5; 6; 7].
Proof.
  apply (@lam_reads_only_diagonals scenario correlated_scenario
           [1; 2; 3; 4; 5; 6; 7]).
  - reflexivity.
  - reflexivity.
  - exact identity_same_diagonal.
  - exact (same_diagonal_refl (identity_matrix 2)).
  - exact (same_diagonal_refl (identity_matrix 2)).
Defined.

Lemma broadcast2_mismatch (f : R -> R -> R) (xs ys : vec) :
  length xs <> length ys -> length xs <> 1%nat -> length ys <> 1%nat ->
  broadcast2 f xs ys = Raise broadcast_error.
Proof.
  intros Hne Hx Hy. unfold broadcast2.
  apply Nat.eqb_neq in Hne, Hx, Hy. now rewrite Hne, Hx, Hy.
Qed.

Lemma first_section_size (n : nat) :
  (4 <= n)%nat ->
  (2 <= n / 3 + (if 0 <? n mod 3 then 1 else 0)
   /\ n / 3 + (if 0 <? n mod 3 then 1 else 0) < n)%nat.
Proof.
  intros H.
  pose proof (Nat.div_mod_eq n 3) as E.
  pose proof (Nat.mod_upper_bound n 3) as U.
  generalize dependent (n / 3)%nat. generalize dependent (n mod 3)%nat.
  intros r U q E.
  destruct (Nat.ltb_spec 0 r); lia.
Qed.

(** [lam] at a parameter vector with one nuisance parameter per bin, on a
    model of at least four bins. *)
Lemma lam_short_vector (self : ConturLikelihood) (pars : vec) :
  constructed self ->
  shape (signal_covariance self) = [length (data self); length (data self)] ->
  (4 <= length (data self))%nat ->
  length pars = (length (data self) + 1)%nat ->
  lam self pars = Raise broadcast_error.
Proof.
  intros Hc Hsc Hfour Hlen.
  pose proof (same_length_sb Hc) as Hsb.
  pose proof (same_length_bd Hc) as Hbd.
  pose proof (data_cov_shape Hc) as Hdc.
  destruct (background_cov_square Hc) as (m & Hbc).
  set (n := length (data self)) in *.
  destruct pars as [| mu rest]; [cbn in Hlen; lia |].
  assert (Hrest : length rest = n) by (cbn in Hlen; lia).
  unfold lam. cbn [item0 bind slice_from1 skipn].
  rewrite broadcast2_same_length by (rewrite length_map; congruence).
  cbn [bind].
  unfold array_split3. rewrite Hrest.
  rewrite (@diagonal_square _ _ Hsc), (@diagonal_square _ _ Hbc),
    (@diagonal_square _ _ Hdc).
  cbn [bind].
  destruct (first_section_size Hfour) as [Hlow Hhigh].
  rewrite broadcast2_mismatch; [reflexivity | | |];
    rewrite ?length_firstn, ?length_map, ?length_seq, ?Hrest; lia.
Qed.

(** X6: on a constructed model of at least four bins with an [N x N] signal
    covariance, [lam] raises on every parameter vector of [N + 1] entries:
    the nuisance parameters are cut into three sections that fit neither
    the [N] uncertainties nor a single value.  In particular [lam] raises
    on the initial values that [config] suggests. *)
Theorem lam_rejects_one_nuisance_per_bin (signal background observed : vec)
    (signal_cov background_cov data_cov : ndarray) (self : ConturLikelihood)
    (allow_negative_signal : bool) (poi_upper_bound : R) :
  __init__ signal background observed signal_cov background_cov data_cov
  = Ok self ->
  shape signal_cov = [length observed; length observed] ->
  (4 <= length observed)%nat ->
  (forall pars,
      length pars = (length observed + 1)%nat ->
      lam self pars = Raise broadcast_error)
  /\ (forall cfg,
        config self allow_negative_signal poi_upper_bound = Ok cfg ->
        lam self (suggested_init cfg) = Raise broadcast_error).
Proof.
  intros Hnew Hsc Hfour.
  destruct (construct_constructed _ _ _ _ _ _ Hnew)
    as (Hc & _ & _ & Hd & Hsc' & _).
  rewrite <- Hd, <- Hsc' in Hsc. rewrite <- Hd in Hfour. rewrite <- Hd.
  split.
  - intros pars Hlen. now apply lam_short_vector.
  - intros cfg Hcfg. apply lam_short_vector; try assumption.
    now destruct (config_sizes _ _ _ Hcfg).
Qed.

Example four_bins_constructed :
  __init__ [1; 2; 3; 4] [10; 20; 30; 40] [11; 22; 33; 44]
    (identity_matrix 4) (identity_matrix 4) (identity_matrix 4)
  = Ok four_bins.
Proof. rewrite construct_decides. reflexivity. Qed.

Lemma lam_rejects_one_nuisance_per_bin_witness :
  (forall pars,
      length pars = 5%nat -> lam four_bins pars = Raise broadcast_error)
  /\ (forall cfg,
        config four_bins true 10 = Ok cfg ->
        lam four_bins (suggested_init cfg) = Raise broadcast_error).
Proof.
  apply (@lam_rejects_one_nuisance_per_bin [1; 2; 3; 4] [10; 20; 30; 40]
           [11; 22; 33; 44] (identity_matrix 4) (identity_matrix 4)
           (identity_matrix 4) four_bins true 10 four_bins_constructed).
  - reflexivity.
  - cbn. lia.
Defined.

(** ** Further properties of the evaluators *)

Lemma cut_extended (n : nat) (main tail : vec) :
  length main = n -> slice_to n (main ++ tail) = slice_to n main.
Proof.
  intros H. unfold slice_to.
  rewrite firstn_app, H, Nat.sub_diag, firstn_O, app_nil_r. reflexivity.
Qed.

Lemma zip_with_app_cut (n : nat) (main : list vec) :
  forall aux : list vec,
    length main = length aux ->
    Forall (fun row => length row = n) main ->
    Forall2 (fun row main_row => slice_to n row = slice_to n main_row)
      (zip_with (@app R) main aux) main.
Proof.
  induction main as [| r main IH]; intros aux Hlen Hrows; [constructor |].
  destruct aux as [| a aux]; [discriminate |].
  injection Hlen as Hlen. inversion Hrows as [| ? ? Hr Hrest]; subst.
  cbn. constructor; [now apply cut_extended | now apply IH].
Qed.

Section EvaluatorFacts.

Variable prim : Primitives.

(** X7: an exception of [lam] reaches the caller of every evaluator
    unchanged: when [lam] raises at [pars], so do the log-likelihood, the
    objective with and without gradient, the sampler and [expected_data],
    with the same exception. *)
Theorem lam_errors_propagate (self : ConturLikelihood) (pars : vec) (e : exn)
    (expected : ExpectationType) (data_arg : option vec) (do_grad : bool)
    (sample_size : nat) (include_auxiliary : bool) (g : rng prim) :
  lam self pars = Raise e ->
  get_logpdf_func prim self expected data_arg pars = Raise e
  /\ get_objective_function prim self expected data_arg do_grad pars = Raise e
  /\ get_sampler prim self pars sample_size include_auxiliary g = Raise e
  /\ expected_data self pars include_auxiliary = Raise e.
Proof.
  intros Hlam.
  unfold get_logpdf_func, get_objective_function, negative_loglikelihood,
    get_sampler, sampler, expected_data, MainModel_log_prob, MainModel_sample,
    MainModel_expected_data, main_model, fmap.
  repeat split.
  - now rewrite Hlam.
  - destruct do_grad; now rewrite Hlam.
  - now rewrite Hlam.
  - now rewrite Hlam.
Qed.

(** X8: the expected data can be fed back as a dataset with or without its
    auxiliary part: on a constructed model with [N x N] covariances and a
    parameter vector of [3 N + 1] entries, the log-likelihood and the
    objective built on [expected_data(pars, True)] are those built on
    [expected_data(pars, False)]. *)
Theorem expected_data_feeds_back (signal background observed : vec)
    (signal_cov background_cov data_cov : ndarray) (self : ConturLikelihood)
    (pars : vec) (expected : ExpectationType) (do_grad : bool) :
  __init__ signal background observed signal_cov background_cov data_cov
  = Ok self ->
  shape signal_cov = [length observed; length observed] ->
  shape background_cov = [length observed; length observed] ->
  length pars = (3 * length observed + 1)%nat ->
  exists mean full,
    expected_data self pars false = Ok mean
    /\ expected_data self pars true = Ok full
    /\ get_logpdf_func prim self expected (Some full)
       = get_logpdf_func prim self expected (Some mean)
    /\ get_objective_function prim self expected (Some full) do_grad
       = get_objective_function prim self expected (Some mean) do_grad.
Proof.
  intros Hnew Hsc Hbc Hlen.
  destruct (construct_constructed _ _ _ _ _ _ Hnew)
    as (Hc & _ & _ & Hd & Hsc' & Hbc' & _).
  rewrite <- Hd, <- Hsc' in Hsc. rewrite <- Hd, <- Hbc' in Hbc.
  rewrite <- Hd in Hlen.
  pose proof (@lam_returns _ _ Hc Hsc Hbc Hlen) as Hlam.
  exists (mean_response self pars).
  exists (mean_response self pars
          ++ ConstraintModel_expected_data (constraint_model self)).
  unfold expected_data, MainModel_expected_data, main_model.
  rewrite Hlam. cbn [bind].
  split; [reflexivity |]. split; [reflexivity |].
  unfold get_logpdf_func, get_objective_function, negative_loglikelihood,
    current_dataset.
  rewrite (@cut_extended _ _ _ (length_mean_response self pars)).
  split; reflexivity.
Qed.

(** X9: a sampled row can be fed back as a dataset with its auxiliary part:
    on a constructed model with [N x N] covariances and a parameter vector
    of [3 N + 1] entries, each row that one call of [sampler(k, True)]
    returns gives the same log-likelihood function as the main-model row
    drawn for it in that call. *)
Theorem sampled_rows_feed_back (signal background observed : vec)
    (signal_cov background_cov data_cov : ndarray) (self : ConturLikelihood)
    (pars : vec) (k : nat) (expected : ExpectationType) (g : rng prim) :
  __init__ signal background observed signal_cov background_cov data_cov
  = Ok self ->
  shape signal_cov = [length observed; length observed] ->
  shape background_cov = [length observed; length observed] ->
  length pars = (3 * length observed + 1)%nat ->
  exists main_rows g1 rows g2,
    MainModel_sample prim (main_model self) pars k g = Ok (main_rows, g1)
    /\ get_sampler prim self pars k true g = Ok (rows, g2)
    /\ Forall2
         (fun row main_row =>
            get_logpdf_func prim self expected (Some row)
            = get_logpdf_func prim self expected (Some main_row))
         rows main_rows.
Proof.
  intros Hnew Hsc Hbc Hlen.
  destruct (construct_constructed _ _ _ _ _ _ Hnew)
    as (Hc & _ & _ & Hd & Hsc' & Hbc' & _).
  rewrite <- Hd, <- Hsc' in Hsc. rewrite <- Hd, <- Hbc' in Hbc.
  rewrite <- Hd in Hlen.
  destruct (@sampler_returns prim self pars k g Hc Hsc Hbc Hlen)
    as (main_rows & g1 & aux_rows & g2 & Hm & _ & Hmain & Haux & _ & Htrue).
  destruct (@rows_of_length _ _ _ Hmain) as [Hk Hrows].
  destruct (@rows_of_length _ _ _ Haux) as [Hk' _].
  assert (Hsame : length main_rows = length aux_rows) by congruence.
  exists main_rows, g1, (zip_with (@app R) main_rows aux_rows), g2.
  split; [assumption |]. split; [assumption |].
  eapply Forall2_impl; [| exact (@zip_with_app_cut _ _ aux_rows Hsame Hrows)].
  intros row main_row Hcut.
  unfold get_logpdf_func, current_dataset. now rewrite Hcut.
Qed.

(** X10: in the apriori mode without a data argument, at [mu = 0] and zero
    nuisance parameters, on covariances without a negative variance, the
    Poisson term compares the background yields with themselves: the mean response is the background and so is the
    dataset; the constraint term is the prior of [N] entries at the [3 N]
    nuisance parameters. *)
Theorem apriori_at_background (signal background observed : vec)
    (signal_cov background_cov data_cov : ndarray) (self : ConturLikelihood) :
  __init__ signal background observed signal_cov background_cov data_cov
  = Ok self ->
  shape signal_cov = [length observed; length observed] ->
  shape background_cov = [length observed; length observed] ->
  nonnegative_diagonal signal_cov ->
  nonnegative_diagonal background_cov ->
  nonnegative_diagonal data_cov ->
  get_logpdf_func prim self apriori None (0 :: repeat 0 (3 * length observed))
  = (a <- poisson_log_prob prim background background ;;
     b <- normal_log_prob prim (repeat 0 (length observed))
            (repeat 1 (length observed)) (repeat 0 (3 * length observed)) ;;
     Ok (a + b)).
Proof.
  intros Hnew Hsc Hbc _ _ _.
  destruct (construct_constructed _ _ _ _ _ _ Hnew)
    as (Hc & _ & Hb & Hd & Hsc' & Hbc' & _).
  rewrite <- Hd, <- Hsc' in Hsc. rewrite <- Hd, <- Hbc' in Hbc.
  rewrite <- Hd, <- Hb.
  set (n := length (data self)) in *.
  assert (Hlen : length (0 :: repeat 0 (3 * n)) = (3 * n + 1)%nat)
    by (cbn; rewrite repeat_length; lia).
  assert (Hmean : mean_response self (0 :: repeat 0 (3 * n))
                  = background_yields self).
  { pose proof (tabulates_self (background_yields self)) as T.
    rewrite (same_length_bd Hc) in T. fold n in T.
    rewrite (tabulates_eq T). unfold mean_response. fold n.
    apply map_ext. intros i. cbn [nth Nat.add].
    rewrite !nth_repeat. ring. }
  unfold get_logpdf_func, current_dataset, MainModel_log_prob, main_model,
    ConstraintModel_log_prob. cbn [is_apriori].
  rewrite (@lam_returns _ _ Hc Hsc Hbc Hlen), Hmean. cbn [bind].
  unfold slice_to. rewrite firstn_all2 by (rewrite (same_length_bd Hc); lia).
  rewrite (prior_loc Hc), (prior_scale Hc), (prior_domain Hc).
  reflexivity.
Qed.

End EvaluatorFacts.

Lemma lam_errors_propagate_witness :
  get_logpdf_func constant_primitives scenario observed None []
  = Raise (IndexError "index 0 is out of bounds for axis 0 with size 0")
  /\ get_objective_function constant_primitives scenario observed None true []
     = Raise (IndexError "index 0 is out of bounds for axis 0 with size 0")
  /\ get_sampler constant_primitives scenario [] 3 true 0%nat
     = Raise (IndexError "index 0 is out of bounds for axis 0 with size 0")
  /\ expected_data scenario [] true
     = Raise (IndexError "index 0 is out of bounds for axis 0 with size 0").
Proof.
  apply (@lam_errors_propagate constant_primitives scenario []
           (IndexError "index 0 is out of bounds for axis 0 with size 0")
           observed None true 3%nat true 0%nat).
  reflexivity.
Defined.

Lemma expected_data_feeds_back_witness :
  exists mean full,
    expected_data scenario [1; 0; 0; 0; 0; 0; 0] false = Ok mean
    /\ expected_data scenario [1; 0; 0; 0; 0; 0; 0] true = Ok full
    /\ get_logpdf_func constant_primitives scenario observed (Some full)
       = get_logpdf_func constant_primitives scenario observed (Some mean)
    /\ get_objective_function constant_primitives scenario observed
         (Some full) true
       = get_objective_function constant_primitives scenario observed
           (Some mean) true.
Proof.
  apply (@expected_data_feeds_back constant_primitives [5; 10] [20; 30]
           [25; 40] (identity_matrix 2) (identity_matrix 2)
           (identity_matrix 2) scenario [1; 0; 0; 0; 0; 0; 0] observed true
           scenario_constructed);
    reflexivity.
Defined.

Lemma sampled_rows_feed_back_witness :
  exists main_rows g1 rows g2,
    MainModel_sample constant_primitives (main_model scenario)
      [1; 0; 0; 0; 0; 0; 0] 2 0%nat
    = Ok (main_rows, g1)
    /\ get_sampler constant_primitives scenario [1; 0; 0; 0; 0; 0; 0] 2 true
         0%nat
       = Ok (rows, g2)
    /\ Forall2
         (fun row main_row =>
            get_logpdf_func constant_primitives scenario observed (Some row)
            = get_logpdf_func constant_primitives scenario observed
                (Some main_row))
         rows main_rows.
Proof.
  apply (@sampled_rows_feed_back constant_primitives [5; 10] [20; 30]
           [25; 40] (identity_matrix 2) (identity_matrix 2)
           (identity_matrix 2) scenario [1; 0; 0; 0; 0; 0; 0] 2 observed
           0%nat scenario_constructed);
    reflexivity.
Defined.

Lemma apriori_at_background_witness :
  get_logpdf_func constant_primitives scenario apriori None
    (0 :: repeat 0 (3 * 2))
  = (a <- poisson_log_prob constant_primitives [20; 30] [20; 30] ;;
     b <- normal_log_prob constant_primitives (repeat 0 2) (repeat 1 2)
            (repeat 0 (3 * 2)) ;;
     Ok (a + b)).
Proof.
  apply (@apriori_at_background constant_primitives [5; 10] [20; 30] [25; 40]
           (identity_matrix 2) (identity_matrix 2) (identity_matrix 2)
           scenario scenario_constructed);
    try reflexivity; apply identity_nonnegative_diagonal.
Defined.

(** ** A signal covariance of another dimension *)

(** X12: a signal covariance whose dimension [M] differs from the number of
    bins [N] passes the constructor, and the model it gives cannot be
    evaluated: when neither [M] nor [N] is 1, [lam] raises on every
    parameter vector of [3 N + 1] entries. *)
Theorem lam_raises_on_wide_signal_covariance (signal background observed : vec)
    (signal_cov background_cov data_cov : ndarray) (self : ConturLikelihood)
    (m : nat) (pars : vec) :
  __init__ signal background observed signal_cov background_cov data_cov
  = Ok self ->
  shape signal_cov = [m; m] ->
  m <> length observed -> m <> 1%nat -> length observed <> 1%nat ->
  length pars = (3 * length observed + 1)%nat ->
  lam self pars = Raise broadcast_error.
Proof.
  intros Hnew Hsc Hm Hm1 Hn1 Hlen.
  destruct (construct_constructed _ _ _ _ _ _ Hnew)
    as (Hc & _ & _ & Hd & Hsc' & _).
  rewrite <- Hsc' in Hsc. rewrite <- Hd in Hm, Hn1, Hlen.
  pose proof (same_length_sb Hc) as Hsb.
  pose proof (same_length_bd Hc) as Hbd.
  pose proof (data_cov_shape Hc) as Hdc.
  destruct (background_cov_square Hc) as (k & Hbc).
  set (n := length (data self)) in *.
  destruct pars as [| mu rest]; [cbn in Hlen; lia |].
  assert (Hrest : length rest = (3 * n)%nat) by (cbn in Hlen; lia).
  unfold lam. cbn [item0 bind slice_from1 skipn].
  rewrite broadcast2_same_length by (rewrite length_map; congruence).
  cbn [bind].
  rewrite (@array_split3_thirds _ _ Hrest).
  rewrite (@diagonal_square _ _ Hsc), (@diagonal_square _ _ Hbc),
    (@diagonal_square _ _ Hdc).
  cbn [bind].
  rewrite broadcast2_mismatch; [reflexivity | | |];
    rewrite ?length_firstn, ?length_map, ?length_seq, ?Hrest; lia.
Qed.

Example wide_signal_covariance_constructed :
  __init__ [5; 10] [20; 30] [25; 40]
    (identity_matrix 3) (identity_matrix 2) (identity_matrix 2)
  = Ok wide_signal_covariance.
Proof. rewrite construct_decides. reflexivity. Qed.

Lemma lam_raises_on_wide_signal_covariance_witness :
  lam wide_signal_covariance [1; 2; 3; 4; 5; 6; 7] = Raise broadcast_error.
Proof.
  apply (@lam_raises_on_wide_signal_covariance [5; 10] [20; 30] [25; 40]
           (identity_matrix 3) (identity_matrix 2) (identity_matrix 2)
           wide_signal_covariance 3 [1; 2; 3; 4; 5; 6; 7]
           wide_signal_covariance_constructed).
  - reflexivity.
  - cbn; lia.
  - lia.
  - cbn; lia.
  - reflexivity.
Defined.
